(** * Multi-tile chat backend: the completion-request orchestration layer

    A shallow embedding of the chat server: [buildParams],
    [callOpenAIWithRetries] and the POST /api/chat handler of the
    orchestrating revision, and the single-call handler of index.js,
    followed by the properties of its specification; then the token
    manager on a model of the database, and the two payment routes, with
    properties read off their code.

    Conventions of the embedding.
    - A JavaScript string is a [string]; each [ascii] stands for one UTF-16
      code unit in the range U+0000..U+00FF, on which [toLowerCase] and
      [trim] below are the ECMAScript functions.  The two literals of the
      source that hold an emoji keep their UTF-8 bytes; they are only ever
      copied.
    - [undefined] and [null] of an optional property are [None].
    - The remote collaborators (the OpenAI client, the token ledger, the
      message table) are functions on an abstract external state; every
      call returns a value or a thrown error, and the next external
      state. *)

From Stdlib Require Import String Ascii List ZArith NArith QArith Bool Lia.
From Stdlib Require Import DecimalString.
Import ListNotations.
Local Close Scope Q_scope.
Local Open Scope Z_scope.
Local Open Scope string_scope.

(** ** JavaScript strings *)

Module JsString.

(** Code units with a lower-case counterpart 32 places further:
    A..Z and the Latin-1 capitals U+00C0..U+00DE without U+00D7. *)
Definition isUpper (c : ascii) : bool :=
  let n := N_of_ascii c in
  ((65 <=? n) && (n <=? 90) || (192 <=? n) && (n <=? 222) && negb (n =? 215))%N.

Definition lowerChar (c : ascii) : ascii :=
  if isUpper c then ascii_of_N (N_of_ascii c + 32) else c.

(** [String.prototype.toLowerCase] *)
Fixpoint toLowerCase (s : string) : string :=
  match s with
  | EmptyString => EmptyString
  | String c s' => String (lowerChar c) (toLowerCase s')
  end.

(** [s.startsWith(p)] *)
Fixpoint startsWith (s p : string) : bool :=
  match p, s with
  | EmptyString, _ => true
  | String _ _, EmptyString => false
  | String a p', String b s' => Ascii.eqb a b && startsWith s' p'
  end.

(** [s.includes(sub)] *)
Fixpoint includes (s sub : string) : bool :=
  startsWith s sub ||
  match s with
  | EmptyString => false
  | String _ s' => includes s' sub
  end.

(** WhiteSpace and LineTerminator code units below U+0100:
    TAB, LF, VT, FF, CR, SP and NBSP. *)
Definition isSpace (c : ascii) : bool :=
  let n := N_of_ascii c in
  ((9 <=? n) && (n <=? 13) || (n =? 32) || (n =? 160))%N.

Fixpoint trimStart (s : string) : string :=
  match s with
  | EmptyString => EmptyString
  | String c s' => if isSpace c then trimStart s' else s
  end.

Fixpoint trimEnd (s : string) : string :=
  match s with
  | EmptyString => EmptyString
  | String c s' =>
      match trimEnd s' with
      | EmptyString => if isSpace c then EmptyString else String c EmptyString
      | r => String c r
      end
  end.

(** [String.prototype.trim] *)
Definition trim (s : string) : string := trimEnd (trimStart s).

(** Truthiness of a string: every string but the empty one. *)
Definition truthy (s : string) : bool :=
  match s with
  | EmptyString => false
  | String _ _ => true
  end.

(** [a || b] on two strings. *)
Definition or (a b : string) : string := if truthy a then a else b.

(** [x || d] where [x] is a string or undefined. *)
Definition orUndef (x : option string) (d : string) : string :=
  match x with
  | Some s => or s d
  | None => d
  end.

(** Truthiness of a value that is a string or undefined. *)
Definition truthyUndef (x : option string) : bool :=
  match x with
  | Some s => truthy s
  | None => false
  end.

(** The value of a code unit as a digit: 0..9, then a..z and A..Z for
    10..35. *)
Definition digitValue (c : ascii) : option Z :=
  let n := N_of_ascii c in
  if ((48 <=? n) && (n <=? 57))%N then Some (Z.of_N n - 48)
  else if ((97 <=? n) && (n <=? 122))%N then Some (Z.of_N n - 87)
  else if ((65 <=? n) && (n <=? 90))%N then Some (Z.of_N n - 55)
  else None.

(** The value of the longest prefix of digits of radix [R]; [acc] is the
    value read so far, [None] while no digit has been read. *)
Fixpoint parseDigits (R : Z) (s : string) (acc : option Z) : option Z :=
  match s with
  | EmptyString => acc
  | String c s' =>
      match digitValue c with
      | Some d =>
          if (d <? R)%Z
          then parseDigits R s'
                 (Some (R * match acc with Some a => a | None => 0 end + d))
          else acc
      | None => acc
      end
  end.

(** [parseInt(s, radix)], with [radix = 0] for a call without radix;
    [None] is NaN.  Exact as long as the value is below 2^53. *)
Definition parseInt (s : string) (radix : Z) : option Z :=
  let s1 := trimStart s in
  let (negative, s2) :=
    match s1 with
    | String "-"%char r => (true, r)
    | String "+"%char r => (false, r)
    | _ => (false, s1)
    end in
  if (negb (radix =? 0) && ((radix <? 2) || (36 <? radix)))%Z then None
  else
    let stripPrefix := ((radix =? 0) || (radix =? 16))%Z in
    let R := if (radix =? 0)%Z then 10 else radix in
    let (R', s3) :=
      match s2 with
      | String "0"%char (String x r) =>
          if stripPrefix && (Ascii.eqb x "x" || Ascii.eqb x "X")
          then (16, r) else (R, s2)
      | _ => (R, s2)
      end in
    option_map (fun v => if negative then - v else v) (parseDigits R' s3 None).

End JsString.

Import JsString.

(** [x ?? d] *)
Definition nullish {A : Type} (x : option A) (d : A) : A :=
  match x with
  | Some v => v
  | None => d
  end.

(** [x?.f] *)
Definition chain {A B : Type} (x : option A) (f : A -> option B) : option B :=
  match x with
  | Some v => f v
  | None => None
  end.

Notation "x ?> f" := (chain x f) (at level 50, left associativity).

(** [a >= b] on numbers, [None] being NaN on the right-hand side. *)
Definition geNumber (a : Z) (b : option Z) : bool :=
  match b with
  | Some l => (l <=? a)%Z
  | None => false
  end.

(** ** Request parameters *)

Module Options.
(** The options bag of [buildParams]; the one property it reads. *)
Record t := { nanoLimit : option Z }.
(** The default [opts = {}]. *)
Definition empty : t := {| nanoLimit := None |}.
End Options.

Module ChatMessage.
Record t := { role : string; content : string }.
End ChatMessage.

Module RequestParams.
(** The object literal passed to [openai.chat.completions.create]; a
    property the literal does not write is [None]. *)
Record t := {
  model : string;
  messages : list ChatMessage.t;
  max_completion_tokens : option Z;
  max_tokens : option Z;
  temperature : option Q
}.
End RequestParams.

Definition NANO_SYSTEM_PROMPT : string :=
  "You are a friendly Hinglish assistant. Keep responses short, clear, and conversational.".

Definition TEXT_SYSTEM_PROMPT : string :=
  "You are a friendly Hinglish assistant. Answer clearly, simply, and conversationally under 400 words.".

(** The test of [buildParams] and of the loop guard:
    [String(model || "").toLowerCase().includes("gpt-5-nano")]. *)
Definition isNano (model : string) : bool :=
  includes (toLowerCase (JsString.or model "")) "gpt-5-nano".

(** [function buildParams(model, userMessage, opts = {})] *)
Definition buildParams (model userMessage : string) (opts : Options.t)
  : RequestParams.t :=
  let m := toLowerCase (JsString.or model "") in
  if includes m "gpt-5-nano" then
    let nanoLimit := nullish (Options.nanoLimit opts) 150 in
    {| RequestParams.model := model;
       RequestParams.messages :=
         [ {| ChatMessage.role := "system";
              ChatMessage.content := NANO_SYSTEM_PROMPT |};
           {| ChatMessage.role := "user";
              ChatMessage.content := userMessage |} ];
       RequestParams.max_completion_tokens := Some nanoLimit;
       RequestParams.max_tokens := None;
       RequestParams.temperature := None |}
  else
    {| RequestParams.model := model;
       RequestParams.messages :=
         [ {| ChatMessage.role := "system";
              ChatMessage.content := TEXT_SYSTEM_PROMPT |};
           {| ChatMessage.role := "user";
              ChatMessage.content := userMessage |} ];
       RequestParams.max_completion_tokens := None;
       RequestParams.max_tokens := Some 400;
       RequestParams.temperature := Some 1%Q |}.

(** ** Thrown values, responses of the provider *)

Module JsError.
(** A thrown value: its [message] property when it has one, and what
    [String(err)] yields. *)
Record t := { message : option string; toString : string }.
(** [new Error(msg)] *)
Definition Error (msg : string) : t :=
  {| message := Some msg; toString := "Error: " ++ msg |}.
End JsError.

(** How an awaited call ends. *)
Inductive Completed (A : Type) : Type :=
| Returned (a : A)
| Thrown (err : JsError.t).

Arguments Returned {A} a.
Arguments Thrown {A} err.

Module Completion.
Record Message := { content : option string }.
Record Choice := { message : option Message; finish_reason : option string }.
Record Usage := { total_tokens : option Z }.
(** The value [create] resolves to, as far as the server reads it. *)
Record t := { choices : option (list Choice); usage : option Usage }.
End Completion.

(** [completion?.choices?.[0]?.message?.content?.trim()] *)
Definition candidateOf (completion : option Completion.t) : option string :=
  completion ?> Completion.choices ?> (fun cs => nth_error cs 0)
             ?> Completion.message ?> Completion.content
             ?> (fun s => Some (trim s)).

(** [completion?.choices?.[0]?.finish_reason || "unknown"] *)
Definition finishReasonOf (completion : option Completion.t) : string :=
  orUndef (completion ?> Completion.choices ?> (fun cs => nth_error cs 0)
                      ?> Completion.finish_reason) "unknown".

(** [completion?.usage?.total_tokens || 0] *)
Definition tokenCountOf (completion : option Completion.t) : Z :=
  nullish (completion ?> Completion.usage ?> Completion.total_tokens) 0.

(** ** Attempts and the result of the orchestrator *)

Inductive AttemptType : Type := primary | nano_retry | fallback.

Definition AttemptType_eqb (a b : AttemptType) : bool :=
  match a, b with
  | primary, primary | nano_retry, nano_retry | fallback, fallback => true
  | _, _ => false
  end.

Module Attempt.
Record t := { model : string; type : AttemptType; nanoLimit : Z }.
End Attempt.

Module Result.
(** What [callOpenAIWithRetries] returns: [{ completion, modelUsed }] on
    success, [{ completion: null, modelUsed: null, lastError }] otherwise. *)
Record t := {
  completion : option Completion.t;
  modelUsed : option string;
  lastError : option JsError.t
}.
End Result.

(** ** Console output *)

Inductive LogLine : Type :=
| LogConfiguredModel (configuredModel : string)
| LogCallAttempt (n : nat) (params : RequestParams.t)
| LogRawResponse (n : nat) (completion : option Completion.t)
| LogReturnedText (model finishReason : string)
| WarnEmptyContent (model finishReason : string)
| ErrorOpenAI (n : nat) (model : string) (err : JsError.t)
| WarnInvalidModel
| WarnUnsupportedParam
| LogIncoming (userId message : string)
| LogLimitExceeded (userId : string) (usedTokens : Z) (limit : option Z)
| ErrorAllAttemptsFailed (lastError : option JsError.t)
| LogReply (aiMessage : string) (tokenCount : Z)
| ErrorInsert (err : JsError.t)
| ErrorAddTokens (err : JsError.t)
| ErrorEndpoint (err : JsError.t).

(** ** The world a request runs in *)

Module Row.
(** A row handed to [supabase.from("messages").insert]. *)
Record t := {
  session_id : option string;
  role : string;
  content : string;
  tokens : option Z
}.
End Row.

(** One call of the OpenAI client: the request and how it ended. *)
Definition Exchange : Type :=
  (RequestParams.t * Completed (option Completion.t))%type.

(** The collaborators imported by the server: [openai], [supabase] and
    the token manager, over their own state [Ext]. *)
Class Services (Ext : Type) : Type := {
  create : RequestParams.t -> Ext -> Completed (option Completion.t) * Ext;
  getTokens : string -> Ext -> Completed Z * Ext;
  insert : list Row.t -> Ext -> Completed unit * Ext;
  addTokens : string -> Z -> Ext -> Completed Z * Ext
}.

Record World (Ext : Type) : Type := {
  ext : Ext;
  (** every call made to [openai.chat.completions.create], oldest first *)
  exchanges : list Exchange;
  (** the lines written to the console, oldest first *)
  console : list LogLine
}.

Arguments ext {Ext} w.
Arguments exchanges {Ext} w.
Arguments console {Ext} w.

(** [process.env] *)
Definition Env : Type := string -> option string.

(** ** Computations: state and exceptions *)

Definition JS (Ext A : Type) : Type := World Ext -> Completed A * World Ext.

Definition ret {Ext A : Type} (a : A) : JS Ext A := fun w => (Returned a, w).

Definition bind {Ext A B : Type} (c : JS Ext A) (k : A -> JS Ext B) : JS Ext B :=
  fun w =>
    match c w with
    | (Returned a, w') => k a w'
    | (Thrown err, w') => (Thrown err, w')
    end.

(** [try { c } catch (err) { h err }] *)
Definition tryCatch {Ext A : Type} (c : JS Ext A) (h : JsError.t -> JS Ext A)
  : JS Ext A :=
  fun w =>
    match c w with
    | (Returned a, w') => (Returned a, w')
    | (Thrown err, w') => h err w'
    end.

Declare Scope js_scope.
Delimit Scope js_scope with js.
Notation "x <- c ;; k" := (bind c (fun x => k))
  (at level 61, c at next level, right associativity) : js_scope.
Notation "c ;; k" := (bind c (fun _ => k))
  (at level 61, right associativity) : js_scope.

(** [console.log], [console.warn], [console.error] *)
Definition log {Ext : Type} (l : LogLine) : JS Ext unit :=
  fun w =>
    (Returned tt,
     {| ext := ext w; exchanges := exchanges w; console := console w ++ [l] |}).

(** A call to a collaborator other than the OpenAI client. *)
Definition call {Ext A : Type} (f : Ext -> Completed A * Ext) : JS Ext A :=
  fun w =>
    let (r, e) := f (ext w) in
    (r, {| ext := e; exchanges := exchanges w; console := console w |}).

(** [await openai.chat.completions.create(params)] *)
Definition openai_create {Ext : Type} {svc : Services Ext} (params : RequestParams.t)
  : JS Ext (option Completion.t) :=
  fun w =>
    let (r, e) := create params (ext w) in
    (r, {| ext := e;
           exchanges := exchanges w ++ [(params, r)];
           console := console w |}).

(** ** The orchestrator *)

(** How one turn of the [for] loop ends. *)
Inductive Iteration : Type :=
| Return (result : Result.t)
| Continue (lastError : option JsError.t).

(** The array literal [attempts] for a configured model. *)
Definition attemptsFor (configuredModel : string) : list Attempt.t :=
  [ {| Attempt.model := configuredModel; Attempt.type := primary;
       Attempt.nanoLimit := 150 |};
    {| Attempt.model := configuredModel; Attempt.type := nano_retry;
       Attempt.nanoLimit := 80 |};
    {| Attempt.model := "gpt-4o-mini"; Attempt.type := fallback;
       Attempt.nanoLimit := 150 |} ].

(** The guard that opens the loop body:
    [attempt.type === "nano-retry" &&
     !String(attempts[0].model).toLowerCase().includes("gpt-5-nano")].
    The body only runs on an element of [attempts], so [attempts[0]]
    exists; [attempt] is the unused default of [nth]. *)
Definition skipped (attempts : list Attempt.t) (attempt : Attempt.t) : bool :=
  AttemptType_eqb (Attempt.type attempt) nano_retry &&
  negb (includes (toLowerCase (Attempt.model (nth 0 attempts attempt)))
          "gpt-5-nano").

(** The request built for an attempt:
    [buildParams(attempt.model, userMessage, { nanoLimit: attempt.nanoLimit })]. *)
Definition paramsOf (userMessage : string) (attempt : Attempt.t)
  : RequestParams.t :=
  buildParams (Attempt.model attempt) userMessage
    {| Options.nanoLimit := Some (Attempt.nanoLimit attempt) |}.

Section Orchestrator.

Context {Ext : Type} {svc : Services Ext}.
Variable env : Env.

Local Open Scope js_scope.

(** The [catch (err)] block of the loop body. *)
Definition onAttemptError (i : nat) (attempt : Attempt.t) (err : JsError.t)
  : JS Ext Iteration :=
  log (ErrorOpenAI (i + 1) (Attempt.model attempt) err) ;;
  let msg := toLowerCase (orUndef (JsError.message err) "") in
  if (includes msg "invalid model" || includes msg "invalid model id"
      || includes msg "unknown model")
     && negb (String.eqb (Attempt.model attempt) "gpt-4o-mini")
  then
    log WarnInvalidModel ;;
    ret (Continue (Some err))
  else if includes msg "unsupported parameter" || includes msg "unsupported value"
  then
    log WarnUnsupportedParam ;;
    ret (Continue (Some err))
  else
    ret (Continue (Some err)).

(** The loop body after the guard: the [try] block and its [catch]. *)
Definition attemptOnce (i : nat) (attempt : Attempt.t) (userMessage : string)
  : JS Ext Iteration :=
  let params := paramsOf userMessage attempt in
  tryCatch
    (log (LogCallAttempt (i + 1) params) ;;
     completion <- openai_create params ;;
     log (LogRawResponse (i + 1) completion) ;;
     let candidate := candidateOf completion in
     let finishReason := finishReasonOf completion in
     if truthyUndef candidate then
       log (LogReturnedText (RequestParams.model params) finishReason) ;;
       ret (Return {| Result.completion := completion;
                      Result.modelUsed := Some (RequestParams.model params);
                      Result.lastError := None |})
     else
       log (WarnEmptyContent (RequestParams.model params) finishReason) ;;
       ret (Continue (Some (JsError.Error "empty_response"))))
    (onAttemptError i attempt).

(** [for (let i = 0; i < attempts.length; i++) { ... }] and the [return]
    after it; [rest] is [attempts] from index [i] on. *)
Fixpoint attemptLoop (attempts : list Attempt.t) (userMessage : string)
    (i : nat) (rest : list Attempt.t) (lastError : option JsError.t)
  : JS Ext Result.t :=
  match rest with
  | [] =>
      ret {| Result.completion := None; Result.modelUsed := None;
             Result.lastError := lastError |}
  | attempt :: rest' =>
      if skipped attempts attempt then
        attemptLoop attempts userMessage (S i) rest' lastError
      else
        it <- attemptOnce i attempt userMessage ;;
        match it with
        | Return result => ret result
        | Continue lastError' =>
            attemptLoop attempts userMessage (S i) rest' lastError'
        end
  end.

(** [process.env.OPENAI_MODEL || "gpt-4o-mini"] *)
Definition configuredModelOf : string :=
  orUndef (env "OPENAI_MODEL") "gpt-4o-mini".

(** [async function callOpenAIWithRetries(userMessage)] *)
Definition callOpenAIWithRetries (userMessage : string) : JS Ext Result.t :=
  let configuredModel := configuredModelOf in
  log (LogConfiguredModel configuredModel) ;;
  let attempts := attemptsFor configuredModel in
  attemptLoop attempts userMessage 0 attempts None.

End Orchestrator.

(** ** The chat endpoint *)

Module Request.
(** [req.body] of POST /api/chat; the fields are strings when present. *)
Record t := {
  userId : option string;
  sessionId : option string;
  tileId : option string;
  message : option string
}.
End Request.

Module Response.
Inductive Body : Type :=
| Failure (error : string) (details : option string)
| Answer (message : string) (tokensUsed : Z) (totalTokens : option Z).
(** [res.status(status).json(body)]; [res.json] alone has status 200. *)
Record t := { status : Z; body : Body }.
End Response.

(** The rows of one exchange written to the [messages] table. *)
Definition rowsOf (sessionId : option string) (message aiMessage : string)
    (tokenCount : Z) : list Row.t :=
  [ {| Row.session_id := sessionId; Row.role := "user";
       Row.content := message; Row.tokens := None |};
    {| Row.session_id := sessionId; Row.role := "assistant";
       Row.content := aiMessage; Row.tokens := Some tokenCount |} ].

(** The text used when no content could be read, orchestrating revision. *)
Definition EMPTY_AFTER_RETRIES : string :=
  "😅 Mujhe samajh nahi aaya (empty response after retries)".

Section Endpoint.

Context {Ext : Type} {svc : Services Ext}.
Variable env : Env.

Local Open Scope js_scope.

(** [parseInt(process.env.FREE_TOKEN_LIMIT || "100000", 10)] *)
Definition FREE_TOKEN_LIMIT : option Z :=
  parseInt (orUndef (env "FREE_TOKEN_LIMIT") "100000") 10.

(** The handler after [callOpenAIWithRetries] gave a completion. *)
Definition answer (userId : string) (sessionId : option string)
    (message : string) (completion : Completion.t) : JS Ext Response.t :=
  let aiMessage := orUndef (candidateOf (Some completion)) EMPTY_AFTER_RETRIES in
  let tokenCount := tokenCountOf (Some completion) in
  log (LogReply aiMessage tokenCount) ;;
  tryCatch
    (call (insert (rowsOf sessionId message aiMessage tokenCount)))
    (fun dbErr => log (ErrorInsert dbErr)) ;;
  tryCatch
    (_ <- call (addTokens userId tokenCount) ;; ret tt)
    (fun tokErr => log (ErrorAddTokens tokErr)) ;;
  totalTokens <- tryCatch
                   (t <- call (getTokens userId) ;; ret (Some t))
                   (fun _ => ret None) ;;
  ret {| Response.status := 200;
         Response.body := Response.Answer aiMessage tokenCount totalTokens |}.

(** [app.post("/api/chat", async (req, res) => { ... })] *)
Definition api_chat (req : Request.t) : JS Ext Response.t :=
  tryCatch
    (let userId := Request.userId req in
     let sessionId := Request.sessionId req in
     let message := Request.message req in
     match userId, message with
     | Some userId, Some message =>
         if negb (truthy userId) || negb (truthy message) then
           ret {| Response.status := 400;
                  Response.body := Response.Failure "Missing fields" None |}
         else
           log (LogIncoming userId message) ;;
           usedTokens <- call (getTokens userId) ;;
           if geNumber usedTokens FREE_TOKEN_LIMIT then
             log (LogLimitExceeded userId usedTokens FREE_TOKEN_LIMIT) ;;
             ret {| Response.status := 402;
                    Response.body := Response.Failure "quota_exhausted" None |}
           else
             result <- callOpenAIWithRetries env message ;;
             match Result.completion result with
             | None =>
                 log (ErrorAllAttemptsFailed (Result.lastError result)) ;;
                 ret {| Response.status := 500;
                        Response.body :=
                          Response.Failure "model_failure"
                            (Some (orUndef
                                     (Result.lastError result ?> JsError.message)
                                     "no_response_from_model")) |}
             | Some completion => answer userId sessionId message completion
             end
     | _, _ =>
         ret {| Response.status := 400;
                Response.body := Response.Failure "Missing fields" None |}
     end)
    (fun err =>
       log (ErrorEndpoint err) ;;
       ret {| Response.status := 500;
              Response.body :=
                Response.Failure "server_error"
                  (Some (orUndef (JsError.message err) (JsError.toString err))) |}).

End Endpoint.

(** ** The single-call revision, index.js *)

Module IndexJs.

Definition EMPTY_FROM_MODEL : string :=
  "😅 Mujhe samajh nahi aaya (empty response from model)".

Definition SHORT_SYSTEM_PROMPT : string :=
  "You are a helpful Hinglish assistant. Keep replies short and clear.".

(** The [params] literal of the handler for [modelToUse]. *)
Definition paramsFor (modelToUse message : string) : RequestParams.t :=
  if includes modelToUse "gpt-5-nano" then
    {| RequestParams.model := modelToUse;
       RequestParams.messages :=
         [ {| ChatMessage.role := "system";
              ChatMessage.content := SHORT_SYSTEM_PROMPT |};
           {| ChatMessage.role := "user";
              ChatMessage.content := message |} ];
       RequestParams.max_completion_tokens := Some 400;
       RequestParams.max_tokens := None;
       RequestParams.temperature := None |}
  else
    {| RequestParams.model := modelToUse;
       RequestParams.messages :=
         [ {| ChatMessage.role := "system";
              ChatMessage.content := TEXT_SYSTEM_PROMPT |};
           {| ChatMessage.role := "user";
              ChatMessage.content := message |} ];
       RequestParams.max_completion_tokens := None;
       RequestParams.max_tokens := Some 400;
       RequestParams.temperature := Some (8 # 10)%Q |}.

Section Endpoint.

Context {Ext : Type} {svc : Services Ext}.
Variable env : Env.

Local Open Scope js_scope.

(** [parseInt(process.env.FREE_TOKEN_LIMIT || "100000")] *)
Definition FREE_TOKEN_LIMIT : option Z :=
  parseInt (orUndef (env "FREE_TOKEN_LIMIT") "100000") 0.

(** [process.env.OPENAI_MODEL || "gpt-4o-mini"] *)
Definition modelToUse : string := orUndef (env "OPENAI_MODEL") "gpt-4o-mini".

(** [app.post("/api/chat", async (req, res) => { ... })] *)
Definition api_chat (req : Request.t) : JS Ext Response.t :=
  tryCatch
    (let userId := Request.userId req in
     let sessionId := Request.sessionId req in
     let message := Request.message req in
     match userId, message with
     | Some userId, Some message =>
         if negb (truthy userId) || negb (truthy message) then
           ret {| Response.status := 400;
                  Response.body := Response.Failure "Missing fields" None |}
         else
           log (LogIncoming userId message) ;;
           usedTokens <- call (getTokens userId) ;;
           if geNumber usedTokens FREE_TOKEN_LIMIT then
             log (LogLimitExceeded userId usedTokens FREE_TOKEN_LIMIT) ;;
             ret {| Response.status := 402;
                    Response.body := Response.Failure "quota_exhausted" None |}
           else
             let params := paramsFor modelToUse message in
             completion <- openai_create params ;;
             log (LogRawResponse 1 completion) ;;
             let aiMessage := orUndef (candidateOf completion) EMPTY_FROM_MODEL in
             let tokenCount := tokenCountOf completion in
             log (LogReply aiMessage tokenCount) ;;
             call (insert (rowsOf sessionId message aiMessage tokenCount)) ;;
             newTotal <- call (addTokens userId tokenCount) ;;
             ret {| Response.status := 200;
                    Response.body :=
                      Response.Answer aiMessage tokenCount (Some newTotal) |}
     | _, _ =>
         ret {| Response.status := 400;
                Response.body := Response.Failure "Missing fields" None |}
     end)
    (fun err =>
       log (ErrorEndpoint err) ;;
       ret {| Response.status := 500;
              Response.body :=
                Response.Failure "server_error" (JsError.message err) |}).

End Endpoint.

End IndexJs.

(** ** The vocabulary of the specification *)

(** The Attempt Planner: the entries of [attempts] that the guard of the
    loop lets through, in the order of the array. *)
Definition planOf (attempts : list Attempt.t) : list Attempt.t :=
  filter (fun attempt => negb (skipped attempts attempt)) attempts.

(** The three entries of the array, by role. *)
Definition primaryOf (configuredModel : string) : Attempt.t :=
  {| Attempt.model := configuredModel; Attempt.type := primary;
     Attempt.nanoLimit := 150 |}.

Definition nanoRetryOf (configuredModel : string) : Attempt.t :=
  {| Attempt.model := configuredModel; Attempt.type := nano_retry;
     Attempt.nanoLimit := 80 |}.

Definition fallbackAttempt : Attempt.t :=
  {| Attempt.model := "gpt-4o-mini"; Attempt.type := fallback;
     Attempt.nanoLimit := 150 |}.

(** The plan of the run under an environment. *)
Definition planFor (env : Env) : list Attempt.t :=
  planOf (attemptsFor (configuredModelOf env)).

(** An attempt is a non-empty success when the call returned and the
    text read from it is a non-empty string. *)
Definition nonEmptySuccess (outcome : Completed (option Completion.t)) : bool :=
  match outcome with
  | Returned completion => truthyUndef (candidateOf completion)
  | Thrown _ => false
  end.

(** The condition a failed attempt leaves in [lastError]. *)
Definition conditionOf (outcome : Completed (option Completion.t)) : JsError.t :=
  match outcome with
  | Returned _ => JsError.Error "empty_response"
  | Thrown err => err
  end.

(** What a turn of the loop leaves behind, by the outcome of its call. *)
Definition iterationOf (attempt : Attempt.t)
    (outcome : Completed (option Completion.t)) : Iteration :=
  match outcome with
  | Returned completion =>
      if truthyUndef (candidateOf completion)
      then Return {| Result.completion := completion;
                     Result.modelUsed := Some (Attempt.model attempt);
                     Result.lastError := None |}
      else Continue (Some (JsError.Error "empty_response"))
  | Thrown err => Continue (Some err)
  end.

(** The condition recorded last: each failed attempt overwrites
    [lastError] with its own condition. *)
Definition recorded (lastError : option JsError.t) (xs : list Exchange)
  : option JsError.t :=
  fold_left (fun _ x => Some (conditionOf (snd x))) xs lastError.

(** Every call in [xs] ended in a throw or in empty text. *)
Definition allFailed (xs : list Exchange) : Prop :=
  Forall (fun x => nonEmptySuccess (snd x) = false) xs.

(** The result when the plan is exhausted. *)
Definition exhausted (lastError : option JsError.t) : Result.t :=
  {| Result.completion := None; Result.modelUsed := None;
     Result.lastError := lastError |}.

(** The result of the attempt that succeeds. *)
Definition succeeded (attempt : Attempt.t) (completion : option Completion.t)
  : Result.t :=
  {| Result.completion := completion;
     Result.modelUsed := Some (Attempt.model attempt);
     Result.lastError := None |}.

Module OrchestrationResult.
Record t := {
  success : bool;
  finalText : option string;
  modelUsed : option string;
  tokenCount : Z;
  lastError : option JsError.t
}.
End OrchestrationResult.

(** The OrchestrationResult of the specification, read off the object
    that [callOpenAIWithRetries] returns with the expressions the handler
    applies to it: [!completion], the trimmed content, and
    [completion?.usage?.total_tokens || 0]. *)
Definition toOrchestrationResult (r : Result.t) : OrchestrationResult.t :=
  {| OrchestrationResult.success :=
       match Result.completion r with Some _ => true | None => false end;
     OrchestrationResult.finalText := candidateOf (Result.completion r);
     OrchestrationResult.modelUsed := Result.modelUsed r;
     OrchestrationResult.tokenCount := tokenCountOf (Result.completion r);
     OrchestrationResult.lastError := Result.lastError r |}.

(** The object returned is one of the two literals of the function, and
    the one with a completion has a non-empty text. *)
Definition oneOfTwoShapes (r : Result.t) : Prop :=
  (exists completion text model,
      Result.completion r = Some completion /\
      candidateOf (Some completion) = Some text /\ text <> "" /\
      Result.modelUsed r = Some model /\ Result.lastError r = None)
  \/
  (exists err,
      Result.completion r = None /\ Result.modelUsed r = None /\
      Result.lastError r = Some err).

(** A well-formed OrchestrationResult: a success with its text and its
    model and no error, or a failure without text, model or tokens and
    with the error recorded last. *)
Definition wellFormed (o : OrchestrationResult.t) : Prop :=
  (OrchestrationResult.success o = true /\
   (exists text, OrchestrationResult.finalText o = Some text /\ text <> "") /\
   (exists model, OrchestrationResult.modelUsed o = Some model) /\
   OrchestrationResult.lastError o = None)
  \/
  (OrchestrationResult.success o = false /\
   OrchestrationResult.finalText o = None /\
   OrchestrationResult.modelUsed o = None /\
   OrchestrationResult.tokenCount o = 0 /\
   exists err, OrchestrationResult.lastError o = Some err).

Section Walk.

Context {Ext : Type} {svc : Services Ext}.
Variable userMessage : string.

(** The calls [xs] are the calls of the client made back to back from the
    external state [e], ending in [e']: nothing else touches the outside
    world in between. *)
Fixpoint chained (e : Ext) (xs : list Exchange) (e' : Ext) : Prop :=
  match xs with
  | [] => e' = e
  | (params, outcome) :: xs' =>
      exists e1, create params e = (outcome, e1) /\ chained e1 xs' e'
  end.

(** The state machine of the specification: a single forward pass over
    the plan.  [Walk plan lastError e xs r e'] walks [plan] from external
    state [e] with [lastError] recorded so far, makes the calls [xs] and
    ends with result [r] in state [e']. *)
Inductive Walk :
  list Attempt.t -> option JsError.t -> Ext ->
  list Exchange -> Result.t -> Ext -> Prop :=
| Walk_exhausted lastError e :
    Walk [] lastError e []
      {| Result.completion := None; Result.modelUsed := None;
         Result.lastError := lastError |} e
| Walk_succeeded attempt plan lastError e completion e' :
    create (paramsOf userMessage attempt) e = (Returned completion, e') ->
    truthyUndef (candidateOf completion) = true ->
    Walk (attempt :: plan) lastError e
      [(paramsOf userMessage attempt, Returned completion)]
      {| Result.completion := completion;
         Result.modelUsed := Some (Attempt.model attempt);
         Result.lastError := None |} e'
| Walk_failed attempt plan lastError e outcome e1 xs r e' :
    create (paramsOf userMessage attempt) e = (outcome, e1) ->
    nonEmptySuccess outcome = false ->
    Walk plan (Some (conditionOf outcome)) e1 xs r e' ->
    Walk (attempt :: plan) lastError e
      ((paramsOf userMessage attempt, outcome) :: xs) r e'.

End Walk.

(** The world in which the orchestrator starts for a request that passed
    the checks: the line of the incoming message is on the console and the
    ledger has been read. *)
Definition afterGate {Ext : Type} (w : World Ext) (userId message : string) (e1 : Ext)
  : World Ext :=
  {| ext := e1; exchanges := exchanges w;
     console := (console w ++ [LogIncoming userId message])%list |}.

(** ** Stubs of the collaborators *)

Module Stub.

(** A scripted client and fixed answers of the ledger and the table; the
    external state counts the calls made to the client. *)
Record Config := {
  script : nat -> Completed (option Completion.t);
  usedTokens : Completed Z;
  insertResult : Completed unit;
  addTokensResult : Completed Z
}.

Definition services (cfg : Config) : Services nat :=
  {| create := fun _ n => (script cfg n, S n);
     getTokens := fun _ n => (usedTokens cfg, n);
     insert := fun _ n => (insertResult cfg, n);
     addTokens := fun _ _ n => (addTokensResult cfg, n) |}.

(** A completion whose first choice carries [text]. *)
Definition completionWith (text : string) : option Completion.t :=
  Some {| Completion.choices :=
            Some [ {| Completion.message :=
                        Some {| Completion.content := Some text |};
                      Completion.finish_reason := Some "stop" |} ];
          Completion.usage := Some {| Completion.total_tokens := Some 12 |} |}.

(** Empty text on the first two calls, real text from the third on. *)
Definition emptyEmptyText (n : nat) : Completed (option Completion.t) :=
  if (n <? 2)%nat then Returned (completionWith "") else Returned (completionWith "Namaste!").

Definition alwaysEmpty (n : nat) : Completed (option Completion.t) :=
  Returned (completionWith "   ").

Definition rateLimited : JsError.t :=
  {| JsError.message := Some "429 Rate limit reached";
     JsError.toString := "Error: 429 Rate limit reached" |}.

(** Every call is refused for rate limiting. *)
Definition alwaysRateLimited (n : nat) : Completed (option Completion.t) :=
  Thrown rateLimited.

Definition databaseDown : JsError.t :=
  {| JsError.message := Some "connection refused";
     JsError.toString := "Error: connection refused" |}.

Definition unsupportedParameter : JsError.t :=
  {| JsError.message := Some "400 Unsupported parameter: 'max_tokens'";
     JsError.toString := "Error: 400 Unsupported parameter: 'max_tokens'" |}.

(** A throw on the first call, real text from the second on. *)
Definition throwThenText (n : nat) : Completed (option Completion.t) :=
  if (n <? 1)%nat then Thrown unsupportedParameter
  else Returned (completionWith "Namaste!").

(** [process.env] with only [OPENAI_MODEL] set, or nothing at all. *)
Definition envWith (model : option string) : Env :=
  fun name => if String.eqb name "OPENAI_MODEL" then model else None.

Definition world0 : World nat := {| ext := 0%nat; exchanges := []; console := [] |}.

Definition config (script : nat -> Completed (option Completion.t)) : Config :=
  {| script := script;
     usedTokens := Returned 40;
     insertResult := Returned tt;
     addTokensResult := Returned 52 |}.

(** A client that answers at once, with a ledger that fails on write. *)
Definition ledgerDown : Config :=
  {| script := fun _ => Returned (completionWith "Namaste!");
     usedTokens := Returned 40;
     insertResult := Returned tt;
     addTokensResult := Thrown databaseDown |}.

(** A client that answers at once, with a table that fails on insert. *)
Definition tableDown : Config :=
  {| script := fun _ => Returned (completionWith "Namaste!");
     usedTokens := Returned 40;
     insertResult := Thrown databaseDown;
     addTokensResult := Returned 52 |}.

Definition request : Request.t :=
  {| Request.userId := Some "u1"; Request.sessionId := Some "s1";
     Request.tileId := None; Request.message := Some "kya haal hai" |}.

End Stub.

(** ** The database behind the collaborators

    The tables of migrations/supabase_schema.sql that the server writes,
    and the statements the code sends through the Supabase client.  A
    statement is awaited: it goes through, or it resolves to
    [{ data: null, error }] (refused: an outage, or a constraint of the
    schema such as a session that does not exist or a text that is no
    uuid), or its promise rejects.  Which of the three happens is outside
    the server; the state carries the faults still to come, one entry per
    statement, and an exhausted list means a healthy database.  Rows are
    kept in the order the unordered [select] returns them. *)

(** Computations on a state [S] that may throw. *)
Definition Eff (S A : Type) : Type := S -> Completed A * S.

Module Eff.

Definition ret {S A : Type} (a : A) : Eff S A := fun s => (Returned a, s).

Definition bind {S A B : Type} (c : Eff S A) (k : A -> Eff S B) : Eff S B :=
  fun s =>
    match c s with
    | (Returned a, s') => k a s'
    | (Thrown err, s') => (Thrown err, s')
    end.

(** [try { c } catch (err) { h err }] *)
Definition tryCatch {S A : Type} (c : Eff S A) (h : JsError.t -> Eff S A)
  : Eff S A :=
  fun s =>
    match c s with
    | (Returned a, s') => (Returned a, s')
    | (Thrown err, s') => h err s'
    end.

(** [throw err] *)
Definition throw {S A : Type} (err : JsError.t) : Eff S A :=
  fun s => (Thrown err, s).

(** A computation on a part of the state, given how to read the part
    and how to write it back. *)
Definition lift {S T A : Type} (get : S -> T) (set : T -> S -> S)
    (c : Eff T A) : Eff S A :=
  fun s => let (r, t) := c (get s) in (r, set t s).

End Eff.

Declare Scope eff_scope.
Delimit Scope eff_scope with eff.
Notation "x <- c ;; k" := (Eff.bind c (fun x => k))
  (at level 61, c at next level, right associativity) : eff_scope.
Notation "c ;; k" := (Eff.bind c (fun _ => k))
  (at level 61, right associativity) : eff_scope.

Module TokenUsage.
(** A row of [token_usage]; [id] stands for the uuid. *)
Record t := {
  id : nat;
  user_id : string;
  total_tokens : Z;
  updated_at : Z
}.
End TokenUsage.

Module Message.
(** A row of [messages]; [tokens] has the default 0. *)
Record t := {
  id : nat;
  session_id : option string;
  role : string;
  content : string;
  tokens : Z;
  created_at : Z
}.
End Message.

(** What a property lookup on the [pricing] literal yields: a price of
    its own, a member inherited from [Object.prototype], or undefined. *)
Inductive Property : Type :=
| Own (value : Z)
| Inherited (name : string)
| Missing.

Module Transaction.
(** A row of [transactions]; [amount] is the value handed to the
    client, whatever it is. *)
Record t := {
  id : nat;
  user_id : option string;
  razorpay_order_id : option string;
  razorpay_payment_id : option string;
  amount : Property;
  currency : string;
  status : string;
  created_at : Z
}.
End Transaction.

(** How a statement can fail. *)
Inductive Fault : Type :=
| Refused
| Rejected (err : JsError.t).

Module Db.

Record t := {
  token_usage : list TokenUsage.t;
  messages : list Message.t;
  transactions : list Transaction.t;
  (** the next uuid handed out by [gen_random_uuid()] *)
  nextId : nat;
  (** the clock behind [now()] and [new Date()] *)
  now : Z;
  (** the faults to come, one entry per statement; [None] goes through *)
  faults : list (option Fault)
}.

Definition withFaults (fs : list (option Fault)) (db : t) : t :=
  {| token_usage := token_usage db; messages := messages db;
     transactions := transactions db; nextId := nextId db; now := now db;
     faults := fs |}.

Definition withTokenUsage (rows : list TokenUsage.t) (db : t) : t :=
  {| token_usage := rows; messages := messages db;
     transactions := transactions db; nextId := nextId db; now := now db;
     faults := faults db |}.

Definition withTransactions (rows : list Transaction.t) (db : t) : t :=
  {| token_usage := token_usage db; messages := messages db;
     transactions := rows; nextId := nextId db; now := now db;
     faults := faults db |}.

(** One awaited statement: [Some data] when it went through, [None] for
    [{ data: null, error }], a throw when the promise rejects. *)
Definition statement {A : Type} (run : t -> A * t) : Eff t (option A) :=
  fun db =>
    match faults db with
    | [] => let (a, db') := run db in (Returned (Some a), db')
    | None :: rest =>
        let (a, db') := run (withFaults rest db) in (Returned (Some a), db')
    | Some Refused :: rest => (Returned None, withFaults rest db)
    | Some (Rejected err) :: rest => (Thrown err, withFaults rest db)
    end.

(** [from("token_usage").select("*").eq("user_id", userId).limit(1)] *)
Definition selectTokenUsage (userId : string) : Eff t (option (list TokenUsage.t)) :=
  statement (fun db =>
    (firstn 1 (filter (fun row => String.eqb (TokenUsage.user_id row) userId)
                 (token_usage db)), db)).

(** [from("token_usage").update({ total_tokens: total, updated_at:
    new Date().toISOString() }).eq("id", id)] *)
Definition updateTokenUsage (id : nat) (total : Z) : Eff t (option unit) :=
  statement (fun db =>
    (tt, withTokenUsage
           (map (fun row =>
                   if Nat.eqb (TokenUsage.id row) id
                   then {| TokenUsage.id := TokenUsage.id row;
                           TokenUsage.user_id := TokenUsage.user_id row;
                           TokenUsage.total_tokens := total;
                           TokenUsage.updated_at := now db |}
                   else row)
              (token_usage db)) db)).

(** [from("token_usage").insert([{ user_id: userId, total_tokens: tokens }])] *)
Definition insertTokenUsage (userId : string) (tokens : Z) : Eff t (option unit) :=
  statement (fun db =>
    (tt, {| token_usage :=
              token_usage db ++
              [ {| TokenUsage.id := nextId db;
                   TokenUsage.user_id := userId;
                   TokenUsage.total_tokens := tokens;
                   TokenUsage.updated_at := now db |} ];
            messages := messages db;
            transactions := transactions db;
            nextId := S (nextId db);
            now := now db;
            faults := faults db |})).

(** The stored form of the rows of one [insert] into [messages]; the
    uuids are consecutive. *)
Fixpoint storedMessages (id : nat) (at_ : Z) (rows : list Row.t) : list Message.t :=
  match rows with
  | [] => []
  | row :: rows' =>
      {| Message.id := id;
         Message.session_id := Row.session_id row;
         Message.role := Row.role row;
         Message.content := Row.content row;
         Message.tokens := nullish (Row.tokens row) 0;
         Message.created_at := at_ |}
      :: storedMessages (S id) at_ rows'
  end.

(** [from("messages").insert(rows)] *)
Definition insertMessages (rows : list Row.t) : Eff t (option unit) :=
  statement (fun db =>
    (tt, {| token_usage := token_usage db;
            messages := messages db ++ storedMessages (nextId db) (now db) rows;
            transactions := transactions db;
            nextId := (nextId db + length rows)%nat;
            now := now db;
            faults := faults db |})).

End Db.

(** ** utils/tokenManager.js *)

Module TokenManager.

Local Open Scope eff_scope.

(** [export async function addTokens(userId, tokens)] *)
Definition addTokens (userId : string) (tokens : Z) : Eff Db.t Z :=
  existing <- Db.selectTokenUsage userId ;;
  match existing with
  | Some (first :: _) =>
      let total := TokenUsage.total_tokens first + tokens in
      Db.updateTokenUsage (TokenUsage.id first) total ;;
      Eff.ret total
  | _ =>
      Db.insertTokenUsage userId tokens ;;
      Eff.ret tokens
  end.

(** [export async function getTokens(userId)] *)
Definition getTokens (userId : string) : Eff Db.t Z :=
  data <- Db.selectTokenUsage userId ;;
  Eff.ret match data with
          | Some (first :: _) => TokenUsage.total_tokens first
          | _ => 0
          end.

End TokenManager.

(** *** Reading the tables *)

(** No fault is to come. *)
Definition healthy (db : Db.t) : Prop := Db.faults db = [].

(** The rows of [token_usage] of a user, in table order. *)
Definition rowsOfUser (userId : string) (db : Db.t) : list TokenUsage.t :=
  filter (fun row => String.eqb (TokenUsage.user_id row) userId)
    (Db.token_usage db).

(** The usage on record for a user: the total of the first of the rows,
    0 without a row. *)
Definition usage (userId : string) (db : Db.t) : Z :=
  match rowsOfUser userId db with
  | first :: _ => TokenUsage.total_tokens first
  | [] => 0
  end.

(** The primary key of [token_usage]: the uuids are pairwise distinct and
    were all handed out already. *)
Definition keyed (db : Db.t) : Prop :=
  NoDup (map TokenUsage.id (Db.token_usage db)) /\
  Forall (fun row => (TokenUsage.id row < Db.nextId db)%nat) (Db.token_usage db).

(** The row [update] writes in place of a row with the given uuid. *)
Definition setTotal (id : nat) (total at_ : Z) (row : TokenUsage.t) : TokenUsage.t :=
  if Nat.eqb (TokenUsage.id row) id
  then {| TokenUsage.id := TokenUsage.id row;
          TokenUsage.user_id := TokenUsage.user_id row;
          TokenUsage.total_tokens := total;
          TokenUsage.updated_at := at_ |}
  else row.

(** The row [insert] appends for a user. *)
Definition freshRow (userId : string) (tokens : Z) (db : Db.t) : TokenUsage.t :=
  {| TokenUsage.id := Db.nextId db;
     TokenUsage.user_id := userId;
     TokenUsage.total_tokens := tokens;
     TokenUsage.updated_at := Db.now db |}.

(** A string of white space only, the empty string included. *)
Fixpoint allSpaces (s : string) : bool :=
  match s with
  | EmptyString => true
  | String c s' => isSpace c && allSpaces s'
  end.

(** ** The server on its database *)

Section Backend.

Context {C : Type}.

(** The OpenAI client, over its own state. *)
Variable client : RequestParams.t -> C -> Completed (option Completion.t) * C.

(** A computation on the database, within the state of all the
    collaborators. *)
Definition onDb {A : Type} (c : Eff Db.t A) : Db.t * C -> Completed A * (Db.t * C) :=
  Eff.lift fst (fun db s => (db, snd s)) c.

(** The collaborators as the server imports them: the client, the token
    manager, and [supabase.from("messages").insert], whose result the
    handlers do not read. *)
Definition backend : Services (Db.t * C) :=
  {| create := fun params s =>
       let (r, c) := client params (snd s) in (r, (fst s, c));
     getTokens := fun userId => onDb (TokenManager.getTokens userId);
     insert := fun rows =>
       onDb (Eff.bind (Db.insertMessages rows) (fun _ => Eff.ret tt));
     addTokens := fun userId tokens =>
       onDb (TokenManager.addTokens userId tokens) |}.

End Backend.


(** ** The payment routes *)

(** [`${x}`] for a string or undefined; also the property key and the
    filter value that undefined turns into. *)
Definition interpolate (x : option string) : string :=
  match x with
  | Some s => s
  | None => "undefined"
  end.

(** The members every object literal inherits from [Object.prototype]. *)
Definition objectPrototypeNames : list string :=
  [ "constructor"; "__defineGetter__"; "__defineSetter__"; "hasOwnProperty";
    "__lookupGetter__"; "__lookupSetter__"; "isPrototypeOf";
    "propertyIsEnumerable"; "toString"; "valueOf"; "__proto__";
    "toLocaleString" ].

(** [pricing[key]] for [pricing = { college: 9900, lite: 29900, pro: 59900 }] *)
Definition pricing (key : string) : Property :=
  if String.eqb key "college" then Own 9900
  else if String.eqb key "lite" then Own 29900
  else if String.eqb key "pro" then Own 59900
  else if existsb (String.eqb key) objectPrototypeNames then Inherited key
  else Missing.

(** [!amount]: undefined and 0 are falsy, functions and objects are not. *)
Definition falsy (amount : Property) : bool :=
  match amount with
  | Own value => Z.eqb value 0
  | Inherited _ => false
  | Missing => true
  end.

Module OrderRequest.
(** The argument of [razorpay.orders.create]. *)
Record t := {
  amount : Property;
  currency : string;
  receipt : string;
  notes_userId : option string;
  notes_plan : option string
}.
End OrderRequest.

Module Order.
(** The order the gateway returns, as far as the server reads it. *)
Record t := { id : option string }.
End Order.

Module OrderBody.
(** [req.body] of POST /api/create-order; the fields are strings when
    present. *)
Record t := { userId : option string; plan : option string }.
End OrderBody.

Module VerifyBody.
(** [req.body] of POST /api/verify-payment.  The user is passed on to
    [addTokens] unchecked; a body without one is not covered. *)
Record t := {
  razorpay_order_id : option string;
  razorpay_payment_id : option string;
  razorpay_signature : option string;
  userId : string
}.
End VerifyBody.

Module PaymentResponse.
Inductive Body : Type :=
| Failure (error : string) (details : option string)
| OrderCreated (order : Order.t)
| Success.
Record t := { status : Z; body : Body }.
End PaymentResponse.

Inductive PaymentLog : Type :=
| LogOrderCreated (userId plan : option string) (amount : Property)
| ErrorRazorpayOrder (err : JsError.t)
| WarnInvalidSignature
| LogPaymentVerified (userId : string)
| ErrorPaymentVerification (err : JsError.t).

(** What the payment routes import from outside the repository: the
    Razorpay client over its own state [R], and [crypto]. *)
Class Platform (R : Type) : Type := {
  orders_create : OrderRequest.t -> R -> Completed Order.t * R;
  (** [createHmac("sha256", key).update(data).digest("hex")] *)
  hmacSha256Hex : string -> string -> string;
  (** what [createHmac] throws for a key that is undefined *)
  invalidKeyError : JsError.t
}.

Module Shop.
Record t (R : Type) : Type := {
  db : Db.t;
  gateway : R;
  (** [Date.now()] *)
  clock : Z;
  console : list PaymentLog
}.
Arguments db {R} _.
Arguments gateway {R} _.
Arguments clock {R} _.
Arguments console {R} _.
End Shop.

Section PaymentRoutes.

Context {R : Type} {platform : Platform R}.
Variable env : Env.

Local Open Scope eff_scope.

Definition logPayment (line : PaymentLog) : Eff (Shop.t R) unit :=
  fun s =>
    (Returned tt,
     {| Shop.db := Shop.db s; Shop.gateway := Shop.gateway s;
        Shop.clock := Shop.clock s;
        Shop.console := Shop.console s ++ [line] |}).

(** A computation on the database, within the state of the routes. *)
Definition inDb {A : Type} (c : Eff Db.t A) : Eff (Shop.t R) A :=
  Eff.lift Shop.db
    (fun db s => {| Shop.db := db; Shop.gateway := Shop.gateway s;
                    Shop.clock := Shop.clock s;
                    Shop.console := Shop.console s |}) c.

(** [await razorpay.orders.create(request)] *)
Definition createOrder (request : OrderRequest.t) : Eff (Shop.t R) Order.t :=
  Eff.lift Shop.gateway
    (fun g s => {| Shop.db := Shop.db s; Shop.gateway := g;
                   Shop.clock := Shop.clock s;
                   Shop.console := Shop.console s |})
    (orders_create request).

(** [from("transactions").insert([{ user_id, razorpay_order_id, amount,
    currency: "INR", status: "created" }])] *)
Definition insertTransaction (userId orderId : option string)
    (amount : Property) : Eff Db.t (option unit) :=
  Db.statement (fun db =>
    (tt, {| Db.token_usage := Db.token_usage db;
            Db.messages := Db.messages db;
            Db.transactions :=
              Db.transactions db ++
              [ {| Transaction.id := Db.nextId db;
                   Transaction.user_id := userId;
                   Transaction.razorpay_order_id := orderId;
                   Transaction.razorpay_payment_id := None;
                   Transaction.amount := amount;
                   Transaction.currency := "INR";
                   Transaction.status := "created";
                   Transaction.created_at := Db.now db |} ];
            Db.nextId := S (Db.nextId db);
            Db.now := Db.now db;
            Db.faults := Db.faults db |})).

(** The row [update({ status: "paid", razorpay_payment_id })] leaves in
    place of a row it matches; an undefined payment id is not sent and
    leaves the column as it is. *)
Definition markPaid (paymentId : option string) (row : Transaction.t)
  : Transaction.t :=
  {| Transaction.id := Transaction.id row;
     Transaction.user_id := Transaction.user_id row;
     Transaction.razorpay_order_id := Transaction.razorpay_order_id row;
     Transaction.razorpay_payment_id :=
       match paymentId with
       | Some p => Some p
       | None => Transaction.razorpay_payment_id row
       end;
     Transaction.amount := Transaction.amount row;
     Transaction.currency := Transaction.currency row;
     Transaction.status := "paid";
     Transaction.created_at := Transaction.created_at row |}.

(** The filter [.eq("razorpay_order_id", orderId)]. *)
Definition hasOrderId (orderId : option string) (row : Transaction.t) : bool :=
  match Transaction.razorpay_order_id row with
  | Some id => String.eqb id (interpolate orderId)
  | None => false
  end.

(** [from("transactions").update({ status: "paid", razorpay_payment_id })
    .eq("razorpay_order_id", razorpay_order_id)] *)
Definition updateTransaction (orderId paymentId : option string)
  : Eff Db.t (option unit) :=
  Db.statement (fun db =>
    (tt, Db.withTransactions
           (map (fun row => if hasOrderId orderId row
                            then markPaid paymentId row else row)
              (Db.transactions db)) db)).

(** [`rcpt_${Date.now()}`] *)
Definition receiptAt (clock : Z) : string :=
  "rcpt_" ++ NilZero.string_of_int (Z.to_int clock).

(** [app.post("/api/create-order", async (req, res) => { ... })] *)
Definition api_create_order (body : OrderBody.t)
  : Eff (Shop.t R) PaymentResponse.t :=
  let userId := OrderBody.userId body in
  let plan := OrderBody.plan body in
  let amount := pricing (interpolate plan) in
  if falsy amount then
    Eff.ret {| PaymentResponse.status := 400;
               PaymentResponse.body :=
                 PaymentResponse.Failure "invalid_plan" None |}
  else
    Eff.tryCatch
      (order <- (fun s =>
                   createOrder
                     {| OrderRequest.amount := amount;
                        OrderRequest.currency := "INR";
                        OrderRequest.receipt := receiptAt (Shop.clock s);
                        OrderRequest.notes_userId := userId;
                        OrderRequest.notes_plan := plan |} s) ;;
       logPayment (LogOrderCreated userId plan amount) ;;
       inDb (insertTransaction userId (Order.id order) amount) ;;
       Eff.ret {| PaymentResponse.status := 200;
                  PaymentResponse.body := PaymentResponse.OrderCreated order |})
      (fun err =>
         logPayment (ErrorRazorpayOrder err) ;;
         Eff.ret {| PaymentResponse.status := 500;
                    PaymentResponse.body :=
                      PaymentResponse.Failure "razorpay_error"
                        (Some (orUndef (JsError.message err)
                                 (JsError.toString err))) |}).

(** [`${razorpay_order_id}|${razorpay_payment_id}`] *)
Definition signedData (body : VerifyBody.t) : string :=
  interpolate (VerifyBody.razorpay_order_id body) ++ "|" ++
  interpolate (VerifyBody.razorpay_payment_id body).

(** [crypto.createHmac("sha256", process.env.RAZORPAY_KEY_SECRET)
      .update(`${razorpay_order_id}|${razorpay_payment_id}`).digest("hex")] *)
Definition digestOf (body : VerifyBody.t) : Eff (Shop.t R) string :=
  match env "RAZORPAY_KEY_SECRET" with
  | Some secret =>
      Eff.ret (hmacSha256Hex secret (signedData body))
  | None => Eff.throw invalidKeyError
  end.

(** [app.post("/api/verify-payment", async (req, res) => { ... })] *)
Definition api_verify_payment (body : VerifyBody.t)
  : Eff (Shop.t R) PaymentResponse.t :=
  let razorpay_order_id := VerifyBody.razorpay_order_id body in
  let razorpay_payment_id := VerifyBody.razorpay_payment_id body in
  let razorpay_signature := VerifyBody.razorpay_signature body in
  let userId := VerifyBody.userId body in
  Eff.tryCatch
    (digest <- digestOf body ;;
     if negb (match razorpay_signature with
              | Some signature => String.eqb digest signature
              | None => false
              end)
     then
       logPayment WarnInvalidSignature ;;
       Eff.ret {| PaymentResponse.status := 400;
                  PaymentResponse.body :=
                    PaymentResponse.Failure "invalid_signature" None |}
     else
       inDb (updateTransaction razorpay_order_id razorpay_payment_id) ;;
       inDb (TokenManager.addTokens userId 200000) ;;
       logPayment (LogPaymentVerified userId) ;;
       Eff.ret {| PaymentResponse.status := 200;
                  PaymentResponse.body := PaymentResponse.Success |})
    (fun err =>
       logPayment (ErrorPaymentVerification err) ;;
       Eff.ret {| PaymentResponse.status := 500;
                  PaymentResponse.body :=
                    PaymentResponse.Failure "verify_payment_error"
                      (Some (orUndef (JsError.message err)
                               (JsError.toString err))) |}).

End PaymentRoutes.

(** The state of the routes with another database, and with one more
    line on the console. *)
Definition withDb {R : Type} (db : Db.t) (s : Shop.t R) : Shop.t R :=
  {| Shop.db := db; Shop.gateway := Shop.gateway s;
     Shop.clock := Shop.clock s; Shop.console := Shop.console s |}.

Definition logged {R : Type} (line : PaymentLog) (s : Shop.t R) : Shop.t R :=
  {| Shop.db := Shop.db s; Shop.gateway := Shop.gateway s;
     Shop.clock := Shop.clock s; Shop.console := Shop.console s ++ [line] |}.

(** The transactions after an update by order id went through. *)
Definition paidTransactions (orderId paymentId : option string)
    (rows : list Transaction.t) : list Transaction.t :=
  map (fun row => if hasOrderId orderId row then markPaid paymentId row else row)
    rows.

(** The request [api_create_order] sends to the gateway. *)
Definition orderRequestOf {R : Type} (body : OrderBody.t) (s : Shop.t R)
  : OrderRequest.t :=
  {| OrderRequest.amount := pricing (interpolate (OrderBody.plan body));
     OrderRequest.currency := "INR";
     OrderRequest.receipt := receiptAt (Shop.clock s);
     OrderRequest.notes_userId := OrderBody.userId body;
     OrderRequest.notes_plan := OrderBody.plan body |}.

(** The row [api_create_order] inserts for an order. *)
Definition createdTransaction (body : OrderBody.t) (order : Order.t) (db : Db.t)
  : Transaction.t :=
  {| Transaction.id := Db.nextId db;
     Transaction.user_id := OrderBody.userId body;
     Transaction.razorpay_order_id := Order.id order;
     Transaction.razorpay_payment_id := None;
     Transaction.amount := pricing (interpolate (OrderBody.plan body));
     Transaction.currency := "INR";
     Transaction.status := "created";
     Transaction.created_at := Db.now db |}.

(** ** Sample data for the database and the payment routes *)

Module Sample.

(** Two users with usage on record. *)
Definition db : Db.t :=
  {| Db.token_usage :=
       [ {| TokenUsage.id := 0%nat; TokenUsage.user_id := "u1";
            TokenUsage.total_tokens := 40; TokenUsage.updated_at := 900 |};
         {| TokenUsage.id := 1%nat; TokenUsage.user_id := "u2";
            TokenUsage.total_tokens := 120000; TokenUsage.updated_at := 950 |} ];
     Db.messages := [];
     Db.transactions :=
       [ {| Transaction.id := 2%nat; Transaction.user_id := Some "u1";
            Transaction.razorpay_order_id := Some "order_1";
            Transaction.razorpay_payment_id := None;
            Transaction.amount := Own 9900; Transaction.currency := "INR";
            Transaction.status := "created"; Transaction.created_at := 960 |} ];
     Db.nextId := 3%nat;
     Db.now := 1000;
     Db.faults := [] |}.

(** The same database with faults to come. *)
Definition dbWith (faults : list (option Fault)) : Db.t :=
  Db.withFaults faults db.

(** A client that answers at once; its state counts the calls. *)
Definition client (params : RequestParams.t) (n : nat)
  : Completed (option Completion.t) * nat :=
  (Returned (Stub.completionWith "Namaste!"), S n).

(** A client that is always rate limited. *)
Definition busyClient (params : RequestParams.t) (n : nat)
  : Completed (option Completion.t) * nat :=
  (Thrown Stub.rateLimited, S n).

Definition world (db : Db.t) : World (Db.t * nat) :=
  {| ext := (db, 0%nat); exchanges := []; console := [] |}.

(** [process.env] with one variable set. *)
Definition envOnly (name value : string) : Env :=
  fun n => if String.eqb n name then Some value else None.

(** A gateway that numbers its orders, and a stand-in for the HMAC. *)
Definition platform : Platform nat :=
  {| orders_create := fun _ n =>
       (Returned {| Order.id := Some ("order_" ++ NilZero.string_of_int (Z.to_int (Z.of_nat n))) |},
        S n);
     hmacSha256Hex := fun key data => key ++ "/" ++ data;
     invalidKeyError := JsError.Error "The key argument must be of type string" |}.

Definition shop (db : Db.t) : Shop.t nat :=
  {| Shop.db := db; Shop.gateway := 7%nat; Shop.clock := 1700000000000;
     Shop.console := [] |}.

Definition proOrder : OrderBody.t :=
  {| OrderBody.userId := Some "u1"; OrderBody.plan := Some "pro" |}.

(** A body signed under the secret [s3cret] of [platform]. *)
Definition paidBody : VerifyBody.t :=
  {| VerifyBody.razorpay_order_id := Some "order_1";
     VerifyBody.razorpay_payment_id := Some "pay_1";
     VerifyBody.razorpay_signature := Some "s3cret/order_1|pay_1";
     VerifyBody.userId := "u1" |}.

End Sample.

(** * Properties *)

(** ** The definitions on small inputs *)

Example toLowerCase_mixed : toLowerCase "GPT-5-Nano" = "gpt-5-nano".
Proof. reflexivity. Qed.

Example trim_both_ends : trim "  kya haal hai  " = "kya haal hai".
Proof. reflexivity. Qed.

Example trim_blank : trim "   " = "".
Proof. reflexivity. Qed.

Example includes_inside : includes "openai/gpt-5-nano-2025" "gpt-5-nano" = true.
Proof. reflexivity. Qed.

Example parseInt_default_limit : parseInt "100000" 10 = Some 100000.
Proof. reflexivity. Qed.

Example parseInt_prefix : parseInt " -12px" 10 = Some (-12).
Proof. reflexivity. Qed.

Example parseInt_not_a_number : parseInt "unlimited" 10 = None.
Proof. reflexivity. Qed.

Example parseInt_hexadecimal : parseInt "0x10" 0 = Some 16.
Proof. reflexivity. Qed.

Example isNano_upper : isNano "GPT-5-NANO" = true.
Proof. reflexivity. Qed.

Example isNano_default : isNano "gpt-4o-mini" = false.
Proof. reflexivity. Qed.

Example candidateOf_blank : candidateOf (Stub.completionWith "  ") = Some "".
Proof. reflexivity. Qed.

(** A throw on the first attempt and text on the second, narrow model
    configured: the second attempt answers and there is no third call. *)
Example throw_then_text :
  let '(r, w') :=
    callOpenAIWithRetries (svc := Stub.services (Stub.config Stub.throwThenText))
      (Stub.envWith (Some "gpt-5-nano")) "hi" Stub.world0 in
  (option_map Result.modelUsed
     (match r with Returned r => Some r | Thrown _ => None end),
   map (fun x => RequestParams.max_completion_tokens (fst x)) (exchanges w'))
  = (Some (Some "gpt-5-nano"), [Some 150; Some 80]).
Proof. reflexivity. Qed.

(** The same client with the default model: the fallback answers. *)
Example throw_then_text_default :
  let '(r, w') :=
    callOpenAIWithRetries (svc := Stub.services (Stub.config Stub.throwThenText))
      (Stub.envWith None) "hi" Stub.world0 in
  (option_map Result.modelUsed
     (match r with Returned r => Some r | Thrown _ => None end),
   map (fun x => RequestParams.model (fst x)) (exchanges w'))
  = (Some (Some "gpt-4o-mini"), ["gpt-4o-mini"; "gpt-4o-mini"]).
Proof. reflexivity. Qed.

(** ** Strings and parameters *)

Lemma or_empty (s : string) : JsString.or s "" = s.
Proof. destruct s; reflexivity. Qed.

Lemma isNano_includes (model : string) :
  isNano model = includes (toLowerCase model) "gpt-5-nano".
Proof. unfold isNano. now rewrite or_empty. Qed.

Lemma truthy_nonempty (s : string) : truthy s = true <-> s <> "".
Proof. destruct s; simpl; split; congruence. Qed.

Lemma truthyUndef_Some (x : option string) :
  truthyUndef x = true <-> exists s, x = Some s /\ s <> "".
Proof.
  destruct x as [s|]; simpl.
  - rewrite truthy_nonempty. split.
    + intros Hs. now exists s.
    + intros (s' & Heq & Hs). now injection Heq as ->.
  - split; [discriminate | intros (s & Heq & _); discriminate].
Qed.

Lemma orUndef_truthy (x : option string) (d s : string) :
  x = Some s -> s <> "" -> orUndef x d = s.
Proof. intros -> Hs. destruct s; [congruence | reflexivity]. Qed.

Lemma candidateOf_None : candidateOf None = None.
Proof. reflexivity. Qed.

Lemma buildParams_model (model userMessage : string) (opts : Options.t) :
  RequestParams.model (buildParams model userMessage opts) = model.
Proof. unfold buildParams. now destruct (includes _ _). Qed.

Lemma paramsOf_model (userMessage : string) (attempt : Attempt.t) :
  RequestParams.model (paramsOf userMessage attempt) = Attempt.model attempt.
Proof. apply buildParams_model. Qed.

Lemma buildParams_nano (model userMessage : string) (opts : Options.t) :
  isNano model = true ->
  buildParams model userMessage opts =
  {| RequestParams.model := model;
     RequestParams.messages :=
       [ {| ChatMessage.role := "system";
            ChatMessage.content := NANO_SYSTEM_PROMPT |};
         {| ChatMessage.role := "user";
            ChatMessage.content := userMessage |} ];
     RequestParams.max_completion_tokens :=
       Some (nullish (Options.nanoLimit opts) 150);
     RequestParams.max_tokens := None;
     RequestParams.temperature := None |}.
Proof. unfold isNano, buildParams. now intros ->. Qed.

Lemma buildParams_text (model userMessage : string) (opts : Options.t) :
  isNano model = false ->
  buildParams model userMessage opts =
  {| RequestParams.model := model;
     RequestParams.messages :=
       [ {| ChatMessage.role := "system";
            ChatMessage.content := TEXT_SYSTEM_PROMPT |};
         {| ChatMessage.role := "user";
            ChatMessage.content := userMessage |} ];
     RequestParams.max_completion_tokens := None;
     RequestParams.max_tokens := Some 400;
     RequestParams.temperature := Some 1%Q |}.
Proof. unfold isNano, buildParams. now intros ->. Qed.

(** ** The plan *)

Lemma attemptsFor_eq (configuredModel : string) :
  attemptsFor configuredModel =
  [primaryOf configuredModel; nanoRetryOf configuredModel; fallbackAttempt].
Proof. reflexivity. Qed.

Lemma skipped_nanoRetry (configuredModel : string) :
  skipped (attemptsFor configuredModel) (nanoRetryOf configuredModel) =
  negb (isNano configuredModel).
Proof. now rewrite isNano_includes. Qed.

Lemma planOf_attemptsFor (configuredModel : string) :
  planOf (attemptsFor configuredModel) =
  if isNano configuredModel
  then [primaryOf configuredModel; nanoRetryOf configuredModel; fallbackAttempt]
  else [primaryOf configuredModel; fallbackAttempt].
Proof.
  unfold planOf.
  set (f := fun attempt => negb (skipped (attemptsFor configuredModel) attempt)).
  rewrite attemptsFor_eq. cbn [filter]. subst f. cbv beta.
  rewrite skipped_nanoRetry.
  change (skipped (attemptsFor configuredModel) (primaryOf configuredModel))
    with false.
  change (skipped (attemptsFor configuredModel) fallbackAttempt) with false.
  now destruct (isNano configuredModel).
Qed.

Lemma planOf_attemptsFor_length (configuredModel : string) :
  length (planOf (attemptsFor configuredModel)) =
  if isNano configuredModel then 3%nat else 2%nat.
Proof. rewrite planOf_attemptsFor. now destruct (isNano configuredModel). Qed.

(** ** One turn of the loop *)

Section OrchestratorFacts.

Context {Ext : Type} {svc : Services Ext}.

Lemma attemptOnce_run (i : nat) (attempt : Attempt.t) (userMessage : string)
    (w : World Ext) (outcome : Completed (option Completion.t)) (e1 : Ext) :
  create (paramsOf userMessage attempt) (ext w) = (outcome, e1) ->
  exists ls,
    attemptOnce i attempt userMessage w =
    (Returned (iterationOf attempt outcome),
     {| ext := e1;
        exchanges := exchanges w ++ [(paramsOf userMessage attempt, outcome)];
        console := console w ++ ls |})
    /\ (forall err, outcome = Thrown err ->
          In (ErrorOpenAI (i + 1) (Attempt.model attempt) err) ls).
Proof.
  intros Hcreate.
  unfold attemptOnce, tryCatch, bind, openai_create, log. cbn [ext exchanges console].
  rewrite Hcreate. destruct outcome as [completion|err]; cbn [iterationOf].
  - rewrite paramsOf_model.
    destruct (truthyUndef (candidateOf completion)); cbn;
      repeat rewrite <- app_assoc; cbn [app];
      (eexists; split; [reflexivity | discriminate]).
  - unfold onAttemptError, bind, log, ret. cbn [ext exchanges console].
    destruct (_ && _); [|destruct (_ || _)]; cbn;
      repeat rewrite <- app_assoc; cbn [app];
      (eexists; split; [reflexivity |]);
      intros err' [= <-]; right; now left.
Qed.

Lemma iterationOf_failed (attempt : Attempt.t)
    (outcome : Completed (option Completion.t)) :
  nonEmptySuccess outcome = false ->
  iterationOf attempt outcome = Continue (Some (conditionOf outcome)).
Proof.
  destruct outcome as [completion|err]; cbn; [|reflexivity].
  now intros ->.
Qed.

(** The loop is the state machine of the specification run over the
    entries its guard lets through; it always returns, and every thrown
    error is on the console. *)
Lemma attemptLoop_walk (attempts : list Attempt.t) (userMessage : string)
    (rest : list Attempt.t) :
  forall (i : nat) (lastError : option JsError.t) (w : World Ext),
  exists r w' xs ls,
    attemptLoop attempts userMessage i rest lastError w = (Returned r, w')
    /\ exchanges w' = (exchanges w ++ xs)%list
    /\ console w' = (console w ++ ls)%list
    /\ Walk userMessage
         (filter (fun attempt => negb (skipped attempts attempt)) rest)
         lastError (ext w) xs r (ext w')
    /\ (forall params err, In (params, Thrown err) xs ->
          exists n, In (ErrorOpenAI n (RequestParams.model params) err) ls).
Proof.
  induction rest as [|attempt rest IH]; intros i lastError w.
  - exists {| Result.completion := None; Result.modelUsed := None;
              Result.lastError := lastError |}, w, [], [].
    cbn. rewrite !app_nil_r.
    refine (conj eq_refl (conj eq_refl (conj eq_refl (conj _ _)))).
    + constructor.
    + intros params err [].
  - cbn [attemptLoop filter].
    destruct (skipped attempts attempt); cbn [negb]; [apply IH|].
    destruct (create (paramsOf userMessage attempt) (ext w)) as [outcome e1] eqn:Hcreate.
    destruct (attemptOnce_run i attempt userMessage w outcome e1 Hcreate)
      as (ls1 & Hrun & Hlogged).
    unfold bind. rewrite Hrun.
    destruct (nonEmptySuccess outcome) eqn:Hok.
    + destruct outcome as [completion|err]; [|discriminate]. cbn in Hok.
      cbn [iterationOf]. rewrite Hok.
      eexists _, _, [_], ls1. unfold ret. cbn [ext exchanges console].
      refine (conj eq_refl (conj eq_refl (conj eq_refl (conj _ _)))).
      * now constructor.
      * intros params err [[=]|[]].
    + rewrite (iterationOf_failed _ _ Hok).
      match goal with
      | |- context [attemptLoop _ _ _ _ _ ?w1] =>
          destruct (IH (S i) (Some (conditionOf outcome)) w1)
            as (r & w' & xs & ls & Hloop & Hxs & Hls & Hwalk & Hlog)
      end.
      cbn [ext exchanges console] in *.
      exists r, w', ((paramsOf userMessage attempt, outcome) :: xs), (ls1 ++ ls)%list.
      rewrite Hloop, Hxs, Hls, <- !app_assoc. cbn [app].
      refine (conj eq_refl (conj eq_refl (conj eq_refl (conj _ _)))).
      * econstructor; eassumption.
      * intros params err [[= <- ->]|Hin].
        -- exists (i + 1)%nat. rewrite paramsOf_model.
           apply in_or_app. left. now apply Hlogged.
        -- destruct (Hlog _ _ Hin) as (n & Hn). exists n.
           apply in_or_app. now right.
Qed.

End OrchestratorFacts.

(** ** Runs of the state machine *)

Section WalkFacts.

Context {Ext : Type} {svc : Services Ext}.
Variable userMessage : string.

Lemma Walk_chained plan lastError e xs r e' :
  Walk userMessage plan lastError e xs r e' -> chained e xs e'.
Proof.
  induction 1; cbn.
  - reflexivity.
  - now exists e'.
  - now exists e1.
Qed.

Lemma Walk_deterministic plan lastError e xs r e' :
  Walk userMessage plan lastError e xs r e' ->
  forall xs2 r2 e2,
    Walk userMessage plan lastError e xs2 r2 e2 -> xs2 = xs /\ r2 = r /\ e2 = e'.
Proof.
  induction 1 as [lastError e
                 |attempt plan lastError e completion e' Hc Hok
                 |attempt plan lastError e outcome e1 xs r e' Hc Hko _ IH];
    intros xs2 r2 e2 H2; inversion H2; subst.
  - auto.
  - match goal with
    | Hc2 : create _ _ = _ |- _ => rewrite Hc in Hc2; injection Hc2 as <- <-
    end.
    auto.
  - match goal with
    | Hc2 : create _ _ = _ |- _ => rewrite Hc in Hc2; injection Hc2 as <- <-
    end.
    cbn in *. congruence.
  - match goal with
    | Hc2 : create _ _ = _ |- _ => rewrite Hc in Hc2; injection Hc2 as -> <-
    end.
    cbn in *. congruence.
  - match goal with
    | Hc2 : create _ _ = _ |- _ => rewrite Hc in Hc2; injection Hc2 as <- <-
    end.
    match goal with
    | Hw : Walk _ _ _ _ _ _ _ |- _ =>
        destruct (IH _ _ _ Hw) as (-> & -> & ->)
    end.
    auto.
Qed.

Lemma Walk_length plan lastError e xs r e' :
  Walk userMessage plan lastError e xs r e' -> (length xs <= length plan)%nat.
Proof. induction 1; cbn; lia. Qed.

Lemma Walk_at_least_one plan lastError e xs r e' :
  Walk userMessage plan lastError e xs r e' -> plan <> [] -> (1 <= length xs)%nat.
Proof. destruct 1; cbn; [congruence | lia | lia]. Qed.

Lemma Walk_in_order plan lastError e xs r e' :
  Walk userMessage plan lastError e xs r e' ->
  map fst xs = firstn (length xs) (map (paramsOf userMessage) plan).
Proof.
  induction 1; cbn.
  - reflexivity.
  - reflexivity.
  - now f_equal.
Qed.

(** A non-empty success ends the walk on the spot. *)
Lemma Walk_stops_at_success plan lastError e xs r e' :
  Walk userMessage plan lastError e xs r e' ->
  forall k x,
    nth_error xs k = Some x -> nonEmptySuccess (snd x) = true ->
    length xs = S k /\
    exists attempt completion,
      nth_error plan k = Some attempt /\
      x = (paramsOf userMessage attempt, Returned completion) /\
      r = succeeded attempt completion.
Proof.
  induction 1 as [lastError e
                 |attempt plan lastError e completion e' Hc Hok
                 |attempt plan lastError e outcome e1 xs r e' Hc Hko _ IH];
    intros k x Hk Hx.
  - now destruct k.
  - destruct k as [|k]; cbn in Hk.
    + injection Hk as <-. split; [reflexivity|].
      now exists attempt, completion.
    + now destruct k.
  - destruct k as [|k]; cbn in Hk.
    + injection Hk as <-. cbn in Hx. congruence.
    + destruct (IH k x Hk Hx) as (Hlen & attempt' & completion & Hn & -> & ->).
      split; [cbn; now rewrite Hlen|].
      now exists attempt', completion.
Qed.

(** Without a non-empty success the walk reaches the end of the plan. *)
Lemma Walk_all_failed plan lastError e xs r e' :
  Walk userMessage plan lastError e xs r e' ->
  allFailed xs ->
  length xs = length plan /\ r = exhausted (recorded lastError xs).
Proof.
  unfold allFailed.
  induction 1 as [lastError e
                 |attempt plan lastError e completion e' Hc Hok
                 |attempt plan lastError e outcome e1 xs r e' Hc Hko _ IH];
    intros Hall.
  - now split.
  - inversion Hall as [|? ? Hx _]; subst. cbn in Hx. congruence.
  - inversion Hall as [|? ? _ Hrest]; subst.
    destruct (IH Hrest) as (Hlen & ->).
    split; [cbn; now rewrite Hlen | reflexivity].
Qed.

Lemma Walk_oneOfTwoShapes plan lastError e xs r e' :
  Walk userMessage plan lastError e xs r e' ->
  plan <> [] \/ lastError <> None ->
  oneOfTwoShapes r.
Proof.
  induction 1 as [lastError e
                 |attempt plan lastError e completion e' Hc Hok
                 |attempt plan lastError e outcome e1 xs r e' Hc Hko _ IH];
    intros Hne.
  - right. destruct lastError as [err|]; [|destruct Hne; congruence].
    now exists err.
  - left. apply truthyUndef_Some in Hok as (text & Htext & Hne').
    destruct completion as [completion|]; [|discriminate].
    exists completion, text, (Attempt.model attempt). now cbn.
  - apply IH. right. discriminate.
Qed.

(** When the client only ever returns empty text, every condition
    recorded is [empty_response]. *)
Lemma recorded_empty (xs : list Exchange) :
  xs <> [] ->
  Forall (fun x => exists completion, snd x = Returned completion) xs ->
  forall lastError,
    recorded lastError xs = Some (JsError.Error "empty_response").
Proof.
  unfold recorded.
  induction xs as [|x xs IH]; [congruence|].
  intros _ Hall lastError. inversion Hall as [|? ? (completion & Hx) Hrest]; subst.
  cbn [fold_left]. rewrite Hx. cbn [conditionOf].
  destruct xs as [|y xs]; [reflexivity|].
  now apply IH.
Qed.

Lemma chained_outcomes (P : Completed (option Completion.t) -> Prop) :
  (forall params e, P (fst (create params e))) ->
  forall xs e e', chained e xs e' -> Forall (fun x => P (snd x)) xs.
Proof.
  intros HP. induction xs as [|[params outcome] xs IH]; intros e e' Hch.
  - constructor.
  - destruct Hch as (e1 & Hc & Hrest). constructor.
    + cbn. specialize (HP params e). now rewrite Hc in HP.
    + eapply IH, Hrest.
Qed.

End WalkFacts.

Lemma oneOfTwoShapes_wellFormed (r : Result.t) :
  oneOfTwoShapes r -> wellFormed (toOrchestrationResult r).
Proof.
  intros [(completion & text & model & Hc & Htext & Hne & Hmodel & Herr)
         |(err & Hc & Hmodel & Herr)]; [left | right];
    unfold toOrchestrationResult; cbn; rewrite Hc.
  - split; [reflexivity|]. split; [now exists text|].
    split; [now exists model | assumption].
  - repeat (split; [easy|]). now exists err.
Qed.

(** ** The orchestrator as a walk of its plan *)

Lemma planFor_eq (env : Env) :
  planFor env =
  if isNano (configuredModelOf env)
  then [primaryOf (configuredModelOf env); nanoRetryOf (configuredModelOf env);
        fallbackAttempt]
  else [primaryOf (configuredModelOf env); fallbackAttempt].
Proof. apply planOf_attemptsFor. Qed.

Lemma planFor_nonempty (env : Env) : planFor env <> [].
Proof. rewrite planFor_eq. now destruct (isNano _). Qed.

Lemma callOpenAIWithRetries_walk {Ext : Type} {svc : Services Ext}
    (env : Env) (userMessage : string) (w : World Ext) :
  exists r w' xs ls,
    callOpenAIWithRetries env userMessage w = (Returned r, w')
    /\ exchanges w' = (exchanges w ++ xs)%list
    /\ console w' = (console w ++ ls)%list
    /\ Walk userMessage (planFor env) None (ext w) xs r (ext w')
    /\ (forall params err, In (params, Thrown err) xs ->
          exists n, In (ErrorOpenAI n (RequestParams.model params) err) ls).
Proof.
  unfold callOpenAIWithRetries, bind, log.
  match goal with
  | |- context [attemptLoop ?a _ _ _ _ ?w1] =>
      destruct (attemptLoop_walk a userMessage a 0%nat None w1)
        as (r & w' & xs & ls & Hloop & Hxs & Hls & Hwalk & Hlog)
  end.
  cbn [ext exchanges console] in *.
  exists r, w', xs, (LogConfiguredModel (configuredModelOf env) :: ls).
  refine (conj Hloop (conj Hxs (conj _ (conj Hwalk _)))).
  - now rewrite Hls, <- app_assoc.
  - intros params err Hin. destruct (Hlog _ _ Hin) as (n & Hn).
    exists n. now right.
Qed.

(** C1.  Whatever the configuration, the client and the state of the
    outside world, [callOpenAIWithRetries] returns after at least one and
    at most plan-length calls of the client; the requests are those of the
    plan, in the order of the plan; a call whose text is non-empty is the
    last one, and the result carries its completion and the model of its
    attempt; a run without such a call goes through the whole plan.  In
    particular, on a plan of three attempts where the client gives empty
    text to the first two and real text to the third, exactly three calls
    are made and [modelUsed] is the model of the third attempt. *)
Theorem C1_walks_plan_until_first_text {Ext : Type} {svc : Services Ext}
    (env : Env) (userMessage : string) (w : World Ext) :
  exists r w' xs,
    callOpenAIWithRetries env userMessage w = (Returned r, w')
    /\ exchanges w' = (exchanges w ++ xs)%list
    /\ (1 <= length xs <= length (planFor env))%nat
    /\ map fst xs =
       firstn (length xs) (map (paramsOf userMessage) (planFor env))
    /\ (forall k x,
          nth_error xs k = Some x -> nonEmptySuccess (snd x) = true ->
          length xs = S k /\
          exists attempt completion,
            nth_error (planFor env) k = Some attempt /\
            x = (paramsOf userMessage attempt, Returned completion) /\
            Result.completion r = completion /\
            Result.modelUsed r = Some (Attempt.model attempt))
    /\ (allFailed xs ->
          length xs = length (planFor env) /\ Result.modelUsed r = None)
    /\ (forall a1 a2 a3 c1 c2 c3 e1 e2 e3,
          planFor env = [a1; a2; a3] ->
          create (paramsOf userMessage a1) (ext w) = (Returned c1, e1) ->
          truthyUndef (candidateOf c1) = false ->
          create (paramsOf userMessage a2) e1 = (Returned c2, e2) ->
          truthyUndef (candidateOf c2) = false ->
          create (paramsOf userMessage a3) e2 = (Returned c3, e3) ->
          truthyUndef (candidateOf c3) = true ->
          length xs = 3%nat /\
          Result.modelUsed r = Some (Attempt.model a3)).
Proof.
  destruct (callOpenAIWithRetries_walk env userMessage w)
    as (r & w' & xs & ls & Hrun & Hxs & _ & Hwalk & _).
  exists r, w', xs.
  refine (conj Hrun (conj Hxs (conj _ (conj _ (conj _ (conj _ _)))))).
  - split.
    + eapply Walk_at_least_one; [eassumption | apply planFor_nonempty].
    + eapply Walk_length; eassumption.
  - eapply Walk_in_order; eassumption.
  - intros k x Hk Hx.
    destruct (Walk_stops_at_success _ _ _ _ _ _ _ Hwalk k x Hk Hx)
      as (Hlen & attempt & completion & Hn & -> & ->).
    split; [assumption|]. now exists attempt, completion.
  - intros Hall.
    destruct (Walk_all_failed _ _ _ _ _ _ _ Hwalk Hall) as (Hlen & ->).
    now split.
  - intros a1 a2 a3 c1 c2 c3 e1 e2 e3 Hplan H1 E1 H2 E2 H3 T3.
    rewrite Hplan in Hwalk.
    assert (Hscript :
      Walk userMessage [a1; a2; a3] None (ext w)
        [(paramsOf userMessage a1, Returned c1);
         (paramsOf userMessage a2, Returned c2);
         (paramsOf userMessage a3, Returned c3)]
        (succeeded a3 c3) e3).
    { eapply Walk_failed; [exact H1 | exact E1 |].
      eapply Walk_failed; [exact H2 | exact E2 |].
      now apply Walk_succeeded. }
    destruct (Walk_deterministic _ _ _ _ _ _ _ Hscript _ _ _ Hwalk)
      as (-> & -> & _).
    now split.
Qed.

(** The scenario of C1 on the scripted client: with [gpt-5-nano]
    configured, empty text twice and then real text give three calls and
    the fallback model. *)
Lemma C1_witness :
  exists r w',
    callOpenAIWithRetries (svc := Stub.services (Stub.config Stub.emptyEmptyText))
      (Stub.envWith (Some "gpt-5-nano")) "hi" Stub.world0 = (Returned r, w')
    /\ length (exchanges w') = 3%nat
    /\ Result.modelUsed r = Some "gpt-4o-mini".
Proof.
  destruct (C1_walks_plan_until_first_text
              (svc := Stub.services (Stub.config Stub.emptyEmptyText))
              (Stub.envWith (Some "gpt-5-nano")) "hi" Stub.world0)
    as (r & w' & xs & Hrun & Hxs & _ & _ & _ & _ & Hscenario).
  exists r, w'. split; [exact Hrun|].
  rewrite Hxs. cbn [Stub.world0 exchanges app].
  exact (Hscenario _ _ _ _ _ _ _ _ _
           eq_refl eq_refl eq_refl eq_refl eq_refl eq_refl eq_refl).
Defined.

(** C2.  For every configured model: in the narrow family the plan has
    the three entries primary, nano-retry, fallback, and the request of
    the second one carries the limit 80; otherwise the plan is primary
    then fallback, and the loop passes over the nano-retry entry without
    a call, without a console line and without touching [lastError].  The
    requests of a run are an initial part of those of the plan, and a run
    in which every call fails makes three calls in the narrow family and
    two otherwise. *)
Theorem C2_attempt_plan {Ext : Type} {svc : Services Ext}
    (env : Env) (userMessage : string) (w : World Ext) :
  (if isNano (configuredModelOf env)
   then
     planFor env =
       [primaryOf (configuredModelOf env); nanoRetryOf (configuredModelOf env);
        fallbackAttempt]
     /\ RequestParams.max_completion_tokens
          (paramsOf userMessage (nanoRetryOf (configuredModelOf env))) = Some 80
   else
     planFor env = [primaryOf (configuredModelOf env); fallbackAttempt]
     /\ forall i rest lastError (w0 : World Ext),
          attemptLoop (attemptsFor (configuredModelOf env)) userMessage i
            (nanoRetryOf (configuredModelOf env) :: rest) lastError w0 =
          attemptLoop (attemptsFor (configuredModelOf env)) userMessage (S i)
            rest lastError w0)
  /\ exists r w' xs,
       callOpenAIWithRetries env userMessage w = (Returned r, w')
       /\ exchanges w' = (exchanges w ++ xs)%list
       /\ map fst xs =
          firstn (length xs) (map (paramsOf userMessage) (planFor env))
       /\ (allFailed xs ->
             length xs = if isNano (configuredModelOf env) then 3%nat else 2%nat).
Proof.
  split.
  - rewrite planFor_eq.
    destruct (isNano (configuredModelOf env)) eqn:Hnano; split; try reflexivity.
    + unfold paramsOf. now rewrite (buildParams_nano _ _ _ Hnano).
    + intros i rest lastError w0. cbn [attemptLoop].
      now rewrite skipped_nanoRetry, Hnano.
  - destruct (callOpenAIWithRetries_walk env userMessage w)
      as (r & w' & xs & ls & Hrun & Hxs & _ & Hwalk & _).
    exists r, w', xs.
    refine (conj Hrun (conj Hxs (conj _ _))).
    + eapply Walk_in_order; eassumption.
    + intros Hall.
      destruct (Walk_all_failed _ _ _ _ _ _ _ Hwalk Hall) as (Hlen & _).
      rewrite Hlen. unfold planFor. apply planOf_attemptsFor_length.
Qed.

(** The two plans: [gpt-5-nano] configured, and nothing configured. *)
Lemma C2_witness :
  planFor (Stub.envWith (Some "gpt-5-nano")) =
    [primaryOf "gpt-5-nano"; nanoRetryOf "gpt-5-nano"; fallbackAttempt]
  /\ planFor (Stub.envWith None) = [primaryOf "gpt-4o-mini"; fallbackAttempt].
Proof.
  split.
  - exact (proj1 (proj1 (C2_attempt_plan
                           (svc := Stub.services (Stub.config Stub.alwaysEmpty))
                           (Stub.envWith (Some "gpt-5-nano")) "hi" Stub.world0))).
  - exact (proj1 (proj1 (C2_attempt_plan
                           (svc := Stub.services (Stub.config Stub.alwaysEmpty))
                           (Stub.envWith None) "hi" Stub.world0))).
Defined.

Section AdvanceFacts.

Context {Ext : Type} {svc : Services Ext}.

(** Whatever the message of the error, the [catch] block writes to the
    console only and asks for the next turn with the error recorded. *)
Lemma onAttemptError_continues (i : nat) (attempt : Attempt.t)
    (err : JsError.t) (w : World Ext) :
  exists ls,
    onAttemptError i attempt err w =
    (Returned (Continue (Some err)),
     {| ext := ext w; exchanges := exchanges w;
        console := (console w ++ ls)%list |}).
Proof.
  unfold onAttemptError, bind, log, ret. cbn [ext exchanges console].
  destruct (_ && _); [|destruct (_ || _)]; cbn [ext exchanges console];
    repeat rewrite <- app_assoc; cbn [app]; eexists; reflexivity.
Qed.

(** After a failed call the walk goes to the next entry of the plan, or
    ends with the condition of that call when there is none. *)
Lemma Walk_advances userMessage plan lastError e xs r e' :
  Walk userMessage plan lastError e xs r e' ->
  forall k params outcome,
    nth_error xs k = Some (params, outcome) ->
    nonEmptySuccess outcome = false ->
    match nth_error plan (S k) with
    | Some next =>
        exists outcome',
          nth_error xs (S k) = Some (paramsOf userMessage next, outcome')
    | None => r = exhausted (Some (conditionOf outcome))
    end.
Proof.
  induction 1 as [lastError e
                 |attempt plan lastError e completion e' Hc Hok
                 |attempt plan lastError e outcome e1 xs r e' Hc Hko Hrest IH];
    intros k params outcome0 Hk Hfail.
  - now destruct k.
  - destruct k as [|k]; cbn in Hk; [|now destruct k].
    injection Hk as <- <-. cbn in Hfail. congruence.
  - destruct k as [|k]; cbn in Hk.
    + injection Hk as <- <-. cbn [nth_error].
      inversion Hrest; subst; cbn; eauto.
    + exact (IH k params outcome0 Hk Hfail).
Qed.

End AdvanceFacts.

(** C3.  For every configuration, client and state of the world the
    orchestrator returns, and what it returns is a well-formed
    OrchestrationResult; it never throws.  Every error thrown by a call,
    whatever its message, is written to the console and turned into the
    next entry of the plan: the call after it is the request of the next
    entry, and when there is none the result is the exhausted one with
    that error as [lastError].  The calls of the client follow each other
    on the external state with nothing in between; the [catch] block
    itself only writes to the console. *)
Theorem C3_failures_absorbed {Ext : Type} {svc : Services Ext}
    (env : Env) (userMessage : string) (w : World Ext) :
  exists r w' xs ls,
    callOpenAIWithRetries env userMessage w = (Returned r, w')
    /\ exchanges w' = (exchanges w ++ xs)%list
    /\ console w' = (console w ++ ls)%list
    /\ wellFormed (toOrchestrationResult r)
    /\ chained (ext w) xs (ext w')
    /\ (forall k params err,
          nth_error xs k = Some (params, Thrown err) ->
          (exists n, In (ErrorOpenAI n (RequestParams.model params) err) ls)
          /\ match nth_error (planFor env) (S k) with
             | Some next =>
                 exists outcome,
                   nth_error xs (S k) = Some (paramsOf userMessage next, outcome)
             | None => r = exhausted (Some err)
             end)
    /\ (forall i attempt err (w0 : World Ext),
          exists ls0,
            onAttemptError i attempt err w0 =
            (Returned (Continue (Some err)),
             {| ext := ext w0; exchanges := exchanges w0;
                console := (console w0 ++ ls0)%list |})).
Proof.
  destruct (callOpenAIWithRetries_walk env userMessage w)
    as (r & w' & xs & ls & Hrun & Hxs & Hls & Hwalk & Hlog).
  exists r, w', xs, ls.
  refine (conj Hrun (conj Hxs (conj Hls (conj _ (conj _ (conj _ _)))))).
  - apply oneOfTwoShapes_wellFormed.
    eapply Walk_oneOfTwoShapes; [eassumption|]. left. apply planFor_nonempty.
  - eapply Walk_chained; eassumption.
  - intros k params err Hk. split.
    + apply Hlog. eapply nth_error_In; eassumption.
    + exact (Walk_advances _ _ _ _ _ _ _ Hwalk k params (Thrown err) Hk eq_refl).
  - apply onAttemptError_continues.
Qed.

(** A client that is always rate limited, default configuration: both
    entries of the plan are tried and the last error is returned. *)
Lemma C3_witness :
  exists r w',
    callOpenAIWithRetries
      (svc := Stub.services (Stub.config Stub.alwaysRateLimited))
      (Stub.envWith None) "hi" Stub.world0 = (Returned r, w')
    /\ length (exchanges w') = 2%nat
    /\ r = exhausted (Some Stub.rateLimited).
Proof.
  destruct (C3_failures_absorbed
              (svc := Stub.services (Stub.config Stub.alwaysRateLimited))
              (Stub.envWith None) "hi" Stub.world0)
    as (r & w' & xs & ls & Hrun & Hxs & _ & _ & _ & Hthrown & _).
  exists r, w'. split; [exact Hrun|].
  pose proof Hrun as Hvalue. vm_compute in Hvalue.
  injection Hvalue as _ Hw. subst w'. cbn in Hxs. subst xs.
  split; [reflexivity|].
  exact (proj2 (Hthrown 1%nat _ _ eq_refl)).
Defined.

(** C4.  When every call of the run ends in a throw or in empty or
    white-space-only text, the orchestrator has gone through the whole
    plan and returns the exhausted result: no success, no text, no model,
    no tokens, and [lastError] the condition recorded last.  With a client
    that only ever returns empty text that condition is [empty_response]
    and the number of calls is the length of the plan. *)
Theorem C4_exhausted_result {Ext : Type} {svc : Services Ext}
    (env : Env) (userMessage : string) (w : World Ext) :
  exists r w' xs,
    callOpenAIWithRetries env userMessage w = (Returned r, w')
    /\ exchanges w' = (exchanges w ++ xs)%list
    /\ (allFailed xs ->
          length xs = length (planFor env) /\
          toOrchestrationResult r =
          {| OrchestrationResult.success := false;
             OrchestrationResult.finalText := None;
             OrchestrationResult.modelUsed := None;
             OrchestrationResult.tokenCount := 0;
             OrchestrationResult.lastError := recorded None xs |})
    /\ ((forall params e,
           exists completion,
             fst (create params e) = Returned completion /\
             truthyUndef (candidateOf completion) = false) ->
          length xs = length (planFor env) /\
          OrchestrationResult.success (toOrchestrationResult r) = false /\
          OrchestrationResult.lastError (toOrchestrationResult r) =
            Some (JsError.Error "empty_response")).
Proof.
  destruct (callOpenAIWithRetries_walk env userMessage w)
    as (r & w' & xs & ls & Hrun & Hxs & _ & Hwalk & _).
  exists r, w', xs.
  refine (conj Hrun (conj Hxs (conj _ _))).
  - intros Hall.
    destruct (Walk_all_failed _ _ _ _ _ _ _ Hwalk Hall) as (Hlen & ->).
    now split.
  - intros Hempty.
    pose proof
      (chained_outcomes
         (fun outcome =>
            exists completion,
              outcome = Returned completion /\
              truthyUndef (candidateOf completion) = false)
         Hempty _ _ _ (Walk_chained _ _ _ _ _ _ _ Hwalk))
      as Houtcomes.
    assert (Hall : allFailed xs).
    { eapply Forall_impl; [|exact Houtcomes].
      intros x (completion & -> & Hc). exact Hc. }
    destruct (Walk_all_failed _ _ _ _ _ _ _ Hwalk Hall) as (Hlen & ->).
    split; [assumption|]. split; [reflexivity|].
    cbn. apply recorded_empty.
    + intros ->. apply (planFor_nonempty env).
      apply length_zero_iff_nil. now rewrite <- Hlen.
    + eapply Forall_impl; [|exact Houtcomes].
      intros x (completion & Hx & _). now exists completion.
Qed.

(** The client that only returns blank text, default configuration: two
    calls, and [empty_response] as the last error. *)
Lemma C4_witness :
  exists r w',
    callOpenAIWithRetries (svc := Stub.services (Stub.config Stub.alwaysEmpty))
      (Stub.envWith None) "hi" Stub.world0 = (Returned r, w')
    /\ length (exchanges w') = 2%nat
    /\ OrchestrationResult.success (toOrchestrationResult r) = false
    /\ OrchestrationResult.lastError (toOrchestrationResult r) =
         Some (JsError.Error "empty_response").
Proof.
  destruct (C4_exhausted_result
              (svc := Stub.services (Stub.config Stub.alwaysEmpty))
              (Stub.envWith None) "hi" Stub.world0)
    as (r & w' & xs & Hrun & Hxs & _ & Hstub).
  exists r, w'. split; [exact Hrun|].
  rewrite Hxs. cbn [Stub.world0 exchanges app].
  apply Hstub. intros params e. eexists. split; reflexivity.
Defined.


(** ** The chat endpoint *)

Section EndpointFacts.

Context {Ext : Type} {svc : Services Ext}.
Variable env : Env.

(** Once a completion is at hand the handler answers with status 200
    whatever the table and the ledger do; their errors go to the console,
    and the client is not called again. *)
Lemma answer_run (userId : string) (sessionId : option string)
    (message : string) (completion : Completion.t) (w : World Ext) :
  let aiMessage := orUndef (candidateOf (Some completion)) EMPTY_AFTER_RETRIES in
  let tokenCount := tokenCountOf (Some completion) in
  let rows := rowsOf sessionId message aiMessage tokenCount in
  exists totalTokens w' ls,
    answer userId sessionId message completion w =
    (Returned {| Response.status := 200;
                 Response.body :=
                   Response.Answer aiMessage tokenCount totalTokens |}, w')
    /\ exchanges w' = exchanges w
    /\ console w' = (console w ++ ls)%list
    /\ (forall dbErr e,
          insert rows (ext w) = (Thrown dbErr, e) -> In (ErrorInsert dbErr) ls)
    /\ (forall tokErr e,
          addTokens userId tokenCount (snd (insert rows (ext w))) =
          (Thrown tokErr, e) ->
          In (ErrorAddTokens tokErr) ls).
Proof.
  intros aiMessage tokenCount rows.
  unfold answer, bind, tryCatch, call, log, ret. cbn [ext exchanges console].
  fold aiMessage tokenCount rows.
  destruct (insert rows (ext w)) as [[[]|dbErr] e1];
    cbn [ext exchanges console snd];
    (destruct (addTokens userId tokenCount e1) as [[n|tokErr] e2];
     cbn [ext exchanges console];
     (destruct (getTokens userId e2) as [[t|getErr] e3];
      cbn [ext exchanges console];
      repeat rewrite <- app_assoc; cbn [app])).
  all: eexists _, _, _.
  all: do 3 (split; [reflexivity|]).
  all: split; intros err0 e0 Heq; try discriminate Heq.
  all: injection Heq as <- _; cbn; auto.
Qed.

(** A request that passes the gate and gets a completion is answered,
    whatever becomes of the writes to the table and to the ledger. *)
Lemma api_chat_persistence_swallowed (req : Request.t) (userId message : string)
    (w : World Ext) (usedTokens : Z) (e1 : Ext) (r : Result.t) (w2 : World Ext)
    (completion : Completion.t) :
  Request.userId req = Some userId -> truthy userId = true ->
  Request.message req = Some message -> truthy message = true ->
  getTokens userId (ext w) = (Returned usedTokens, e1) ->
  geNumber usedTokens (FREE_TOKEN_LIMIT env) = false ->
  callOpenAIWithRetries env message (afterGate w userId message e1) =
    (Returned r, w2) ->
  Result.completion r = Some completion ->
  let aiMessage := orUndef (candidateOf (Some completion)) EMPTY_AFTER_RETRIES in
  let tokenCount := tokenCountOf (Some completion) in
  let rows := rowsOf (Request.sessionId req) message aiMessage tokenCount in
  exists totalTokens w' ls,
    api_chat env req w =
    (Returned {| Response.status := 200;
                 Response.body :=
                   Response.Answer aiMessage tokenCount totalTokens |}, w')
    /\ exchanges w' = exchanges w2
    /\ console w' = (console w2 ++ ls)%list
    /\ (forall dbErr e,
          insert rows (ext w2) = (Thrown dbErr, e) -> In (ErrorInsert dbErr) ls)
    /\ (forall tokErr e,
          addTokens userId tokenCount (snd (insert rows (ext w2))) =
          (Thrown tokErr, e) ->
          In (ErrorAddTokens tokErr) ls).
Proof.
  intros Hu Htu Hm Htm Hget Hgate Hrun Hcompletion aiMessage tokenCount rows.
  destruct (answer_run userId (Request.sessionId req) message completion w2)
    as (totalTokens & w' & ls & Hanswer & Hxs & Hls & Hdb & Htok).
  exists totalTokens, w', ls.
  refine (conj _ (conj Hxs (conj Hls (conj Hdb Htok)))).
  unfold api_chat, tryCatch. rewrite Hu, Hm, Htu, Htm. cbn [negb orb].
  unfold bind, log, call. cbn [ext exchanges console].
  rewrite Hget, Hgate. unfold afterGate in Hrun. rewrite Hrun, Hcompletion.
  now rewrite Hanswer.
Qed.

End EndpointFacts.

(** C7.  A request with a user and a message whose recorded usage has
    reached the ceiling, equality included, is answered with status 402
    and the reason [quota_exhausted]; the client is not called, and
    nothing is asked of the collaborators after the ledger was read. *)
Theorem C7_quota_gate {Ext : Type} {svc : Services Ext} (env : Env)
    (req : Request.t) (userId message : string) (w : World Ext)
    (usedTokens limit : Z) (e1 : Ext) :
  Request.userId req = Some userId -> truthy userId = true ->
  Request.message req = Some message -> truthy message = true ->
  getTokens userId (ext w) = (Returned usedTokens, e1) ->
  FREE_TOKEN_LIMIT env = Some limit ->
  limit <= usedTokens ->
  exists w',
    api_chat env req w =
    (Returned {| Response.status := 402;
                 Response.body := Response.Failure "quota_exhausted" None |}, w')
    /\ exchanges w' = exchanges w
    /\ ext w' = e1.
Proof.
  intros Hu Htu Hm Htm Hget Hlimit Hle.
  unfold api_chat, tryCatch. rewrite Hu, Hm, Htu, Htm. cbn [negb orb].
  unfold bind, log, call, ret. cbn [ext exchanges console].
  rewrite Hget, Hlimit. cbn [geNumber].
  destruct (Z.leb_spec limit usedTokens); [|lia].
  eexists. split; [reflexivity|]. now split.
Qed.

(** Usage exactly at the default ceiling of 100000. *)
Lemma C7_witness :
  exists w',
    api_chat (svc := Stub.services
                       {| Stub.script := Stub.emptyEmptyText;
                          Stub.usedTokens := Returned 100000;
                          Stub.insertResult := Returned tt;
                          Stub.addTokensResult := Returned 100012 |})
      (Stub.envWith None) Stub.request Stub.world0 =
    (Returned {| Response.status := 402;
                 Response.body := Response.Failure "quota_exhausted" None |}, w')
    /\ exchanges w' = []
    /\ ext w' = 0%nat.
Proof.
  apply (C7_quota_gate
           (svc := Stub.services
                     {| Stub.script := Stub.emptyEmptyText;
                        Stub.usedTokens := Returned 100000;
                        Stub.insertResult := Returned tt;
                        Stub.addTokensResult := Returned 100012 |})
           (Stub.envWith None) Stub.request "u1" "kya haal hai" Stub.world0
           100000 100000 0%nat);
    [reflexivity | reflexivity | reflexivity | reflexivity | reflexivity
    | reflexivity | lia].
Defined.

(** C10.  The orchestrator always returns; when the completion of its
    result is not null, the text read from it is a non-empty string and
    [modelUsed] is not null.  So the handler, which passes the gate and
    receives this result, answers with that very text: the placeholder on
    the right of its [||] is never taken. *)
Theorem C10_completion_carries_text {Ext : Type} {svc : Services Ext}
    (env : Env) (userMessage : string) (w : World Ext) :
  exists r w',
    callOpenAIWithRetries env userMessage w = (Returned r, w')
    /\ forall completion,
         Result.completion r = Some completion ->
         exists text,
           candidateOf (Some completion) = Some text /\ text <> ""
           /\ Result.modelUsed r <> None
           /\ (forall req userId w0 usedTokens e1,
                 Request.userId req = Some userId -> truthy userId = true ->
                 Request.message req = Some userMessage ->
                 truthy userMessage = true ->
                 getTokens userId (ext w0) = (Returned usedTokens, e1) ->
                 geNumber usedTokens (FREE_TOKEN_LIMIT env) = false ->
                 w = afterGate w0 userId userMessage e1 ->
                 exists totalTokens w'',
                   api_chat env req w0 =
                   (Returned
                      {| Response.status := 200;
                         Response.body :=
                           Response.Answer text
                             (tokenCountOf (Some completion)) totalTokens |},
                    w'')).
Proof.
  destruct (callOpenAIWithRetries_walk env userMessage w)
    as (r & w' & xs & ls & Hrun & _ & _ & Hwalk & _).
  exists r, w'. split; [exact Hrun|].
  intros completion Hcompletion.
  destruct (Walk_oneOfTwoShapes _ _ _ _ _ _ _ Hwalk (or_introl (planFor_nonempty env)))
    as [(completion' & text & model & Hc & Htext & Hne & Hmodel & _)
       |(err & Hc & _)]; [|congruence].
  rewrite Hc in Hcompletion. injection Hcompletion as <-.
  exists text.
  refine (conj Htext (conj Hne (conj _ _))); [congruence|].
  intros req userId w0 usedTokens e1 Hu Htu Hm Htm Hget Hgate ->.
  destruct (api_chat_persistence_swallowed env req userId userMessage w0
              usedTokens e1 r w' completion' Hu Htu Hm Htm Hget Hgate Hrun Hc)
    as (totalTokens & w'' & _ & Hchat & _).
  exists totalTokens, w''.
  now rewrite (orUndef_truthy _ EMPTY_AFTER_RETRIES _ Htext Hne) in Hchat.
Qed.

(** C10 on the scripted client: the third call gives text, and the
    handler answers with it. *)
Lemma C10_witness :
  exists totalTokens w'',
    api_chat (svc := Stub.services (Stub.config Stub.emptyEmptyText))
      (Stub.envWith (Some "gpt-5-nano")) Stub.request Stub.world0 =
    (Returned {| Response.status := 200;
                 Response.body := Response.Answer "Namaste!" 12 totalTokens |},
     w'').
Proof.
  destruct (C10_completion_carries_text
              (svc := Stub.services (Stub.config Stub.emptyEmptyText))
              (Stub.envWith (Some "gpt-5-nano")) "kya haal hai"
              (afterGate Stub.world0 "u1" "kya haal hai" 0%nat))
    as (r & w' & Hrun & Htext).
  vm_compute in Hrun. injection Hrun as <- <-.
  destruct (Htext _ eq_refl) as (text & Hcandidate & _ & _ & Hchat).
  vm_compute in Hcandidate. injection Hcandidate as <-.
  exact (Hchat Stub.request "u1" Stub.world0 40 0%nat
           eq_refl eq_refl eq_refl eq_refl eq_refl eq_refl eq_refl).
Defined.

(** In index.js a request that passes the gate and gets a completion is
    answered with status 500 as soon as the insert or the update of the
    ledger throws; the error reaches the console through the outer
    [catch]. *)
Lemma index_js_write_failure_escalates {Ext : Type} {svc : Services Ext}
    (env : Env) (req : Request.t) (userId message : string) (w : World Ext)
    (usedTokens : Z) (e1 e2 e3 : Ext) (completion : option Completion.t)
    (written : Completed unit) (err : JsError.t) :
  Request.userId req = Some userId -> truthy userId = true ->
  Request.message req = Some message -> truthy message = true ->
  getTokens userId (ext w) = (Returned usedTokens, e1) ->
  geNumber usedTokens (IndexJs.FREE_TOKEN_LIMIT env) = false ->
  create (IndexJs.paramsFor (IndexJs.modelToUse env) message) e1 =
    (Returned completion, e2) ->
  insert (rowsOf (Request.sessionId req) message
            (orUndef (candidateOf completion) IndexJs.EMPTY_FROM_MODEL)
            (tokenCountOf completion)) e2 = (written, e3) ->
  written = Thrown err \/
  (written = Returned tt /\
   exists e4,
     addTokens userId (tokenCountOf completion) e3 = (Thrown err, e4)) ->
  exists w',
    IndexJs.api_chat env req w =
    (Returned {| Response.status := 500;
                 Response.body :=
                   Response.Failure "server_error" (JsError.message err) |}, w')
    /\ In (ErrorEndpoint err) (console w').
Proof.
  intros Hu Htu Hm Htm Hget Hgate Hcreate Hinsert Hfail.
  unfold IndexJs.api_chat, tryCatch. rewrite Hu, Hm, Htu, Htm. cbn [negb orb].
  unfold bind, log, call, openai_create, ret. cbn [ext exchanges console].
  rewrite Hget. cbn [ext exchanges console]. rewrite Hgate.
  cbn [ext exchanges console]. rewrite Hcreate. cbn [ext exchanges console].
  rewrite Hinsert.
  destruct Hfail as [->|(-> & e4 & Hadd)]; cbn [ext exchanges console].
  - eexists. split; [reflexivity|].
    apply in_or_app. right. now left.
  - rewrite Hadd. cbn [ext exchanges console].
    eexists. split; [reflexivity|].
    apply in_or_app. right. now left.
Qed.

(** C8.  The orchestrating revision answers whatever the writes do
    ([api_chat_persistence_swallowed]); the handler of index.js awaits
    the same two writes outside any [try] of their own, so that a failing
    write ends in its outer [catch]
    ([index_js_write_failure_escalates]).  On one and the same request,
    with a client that answers at once, a ledger or a table that throws
    makes index.js respond with status 500 [server_error], where the
    orchestrating revision responds with status 200 and the answer. *)
Theorem C8_index_js_escalates_persistence_failure :
  fst (IndexJs.api_chat (svc := Stub.services Stub.ledgerDown)
         (Stub.envWith None) Stub.request Stub.world0) =
    Returned {| Response.status := 500;
                Response.body :=
                  Response.Failure "server_error" (Some "connection refused") |}
  /\ fst (IndexJs.api_chat (svc := Stub.services Stub.tableDown)
            (Stub.envWith None) Stub.request Stub.world0) =
       Returned {| Response.status := 500;
                   Response.body :=
                     Response.Failure "server_error" (Some "connection refused") |}
  /\ fst (api_chat (svc := Stub.services Stub.ledgerDown)
            (Stub.envWith None) Stub.request Stub.world0) =
       Returned {| Response.status := 200;
                   Response.body := Response.Answer "Namaste!" 12 (Some 40) |}
  /\ fst (api_chat (svc := Stub.services Stub.tableDown)
            (Stub.envWith None) Stub.request Stub.world0) =
       Returned {| Response.status := 200;
                   Response.body := Response.Answer "Namaste!" 12 (Some 40) |}.
Proof. repeat split; vm_compute; reflexivity. Qed.

(** ** The Parameter Builder *)

Lemma startsWith_toLowerCase (p s : string) :
  startsWith s p = true ->
  startsWith (toLowerCase s) (toLowerCase p) = true.
Proof.
  revert s. induction p as [|a p IH]; intros [|b s]; cbn; try congruence.
  intros [Hab Hrest]%andb_prop.
  apply Ascii.eqb_eq in Hab as ->. now rewrite Ascii.eqb_refl, IH.
Qed.

Lemma includes_toLowerCase (s p : string) :
  includes s p = true ->
  includes (toLowerCase s) (toLowerCase p) = true.
Proof.
  induction s as [|c s IH]; cbn [includes toLowerCase];
    intros [Hstart|Hrest]%orb_prop; apply orb_true_iff.
  - left. now apply (startsWith_toLowerCase p "").
  - discriminate.
  - left. now apply (startsWith_toLowerCase p (String c s)).
  - right. now apply IH.
Qed.

(** A model that [buildParams] takes for a general one is also one for
    the case-sensitive test of index.js. *)
Lemma isNano_false_includes (model : string) :
  isNano model = false -> includes model "gpt-5-nano" = false.
Proof.
  intros Hnano. destruct (includes model "gpt-5-nano") eqn:Hinc; [|reflexivity].
  apply includes_toLowerCase in Hinc. rewrite isNano_includes in Hnano.
  change (toLowerCase "gpt-5-nano") with "gpt-5-nano" in Hinc.
  congruence.
Qed.

(** C5.  For a model of the narrow family, matched without regard to
    case, [buildParams] gives the model as passed, the system instruction
    for short replies followed by the one user message, the limit under
    [max_completion_tokens] with the value of [opts.nanoLimit], 150 when
    it is absent, and neither [max_tokens] nor [temperature]. *)
Theorem C5_narrow_family_params (model userMessage : string) (opts : Options.t) :
  isNano model = true ->
  buildParams model userMessage opts =
  {| RequestParams.model := model;
     RequestParams.messages :=
       [ {| ChatMessage.role := "system";
            ChatMessage.content :=
              "You are a friendly Hinglish assistant. Keep responses short, clear, and conversational." |};
         {| ChatMessage.role := "user";
            ChatMessage.content := userMessage |} ];
     RequestParams.max_completion_tokens :=
       Some (match Options.nanoLimit opts with
             | Some limit => limit
             | None => 150
             end);
     RequestParams.max_tokens := None;
     RequestParams.temperature := None |}.
Proof. apply buildParams_nano. Qed.

Lemma C5_witness :
  isNano "GPT-5-Nano-2025" = true
  /\ RequestParams.max_completion_tokens
       (buildParams "GPT-5-Nano-2025" "hi" Options.empty) = Some 150
  /\ RequestParams.temperature
       (buildParams "GPT-5-Nano-2025" "hi" Options.empty) = None.
Proof.
  split; [reflexivity|].
  rewrite (C5_narrow_family_params "GPT-5-Nano-2025" "hi" Options.empty eq_refl).
  split; reflexivity.
Defined.

(** C6, as the specification states it, asks for a temperature that can
    be configured.  [buildParams] has none: no two inputs of it, whatever
    the models outside the narrow family, the messages and the options
    bags, give requests with different temperatures. *)
Lemma C6_temperature_not_configurable :
  ~ (exists model1 userMessage1 opts1 model2 userMessage2 opts2,
        isNano model1 = false /\ isNano model2 = false /\
        RequestParams.temperature (buildParams model1 userMessage1 opts1) <>
        RequestParams.temperature (buildParams model2 userMessage2 opts2)).
Proof.
  intros (model1 & userMessage1 & opts1 & model2 & userMessage2 & opts2
          & Hnano1 & Hnano2 & Hdiff).
  apply Hdiff.
  now rewrite (buildParams_text _ _ _ Hnano1), (buildParams_text _ _ _ Hnano2).
Qed.

(** C6, amended.  For a model outside the narrow family [buildParams]
    gives the model as passed, the system instruction for conversational
    replies followed by the one user message, [max_tokens] with the fixed
    value 400, no [max_completion_tokens], and the temperature 1.0 written
    in the function; the handler of index.js builds the same request with
    the temperature 0.8 written in it.  Both literals lie between 0.8 and
    1.0. *)
Theorem C6_general_params_literal_temperature
    (model userMessage : string) (opts : Options.t) :
  isNano model = false ->
  buildParams model userMessage opts =
  {| RequestParams.model := model;
     RequestParams.messages :=
       [ {| ChatMessage.role := "system";
            ChatMessage.content :=
              "You are a friendly Hinglish assistant. Answer clearly, simply, and conversationally under 400 words." |};
         {| ChatMessage.role := "user";
            ChatMessage.content := userMessage |} ];
     RequestParams.max_completion_tokens := None;
     RequestParams.max_tokens := Some 400;
     RequestParams.temperature := Some 1%Q |}
  /\ IndexJs.paramsFor model userMessage =
     {| RequestParams.model := model;
        RequestParams.messages :=
          [ {| ChatMessage.role := "system";
               ChatMessage.content :=
                 "You are a friendly Hinglish assistant. Answer clearly, simply, and conversationally under 400 words." |};
            {| ChatMessage.role := "user";
               ChatMessage.content := userMessage |} ];
        RequestParams.max_completion_tokens := None;
        RequestParams.max_tokens := Some 400;
        RequestParams.temperature := Some (8 # 10)%Q |}
  /\ (forall t,
        RequestParams.temperature (buildParams model userMessage opts) = Some t
        \/ RequestParams.temperature (IndexJs.paramsFor model userMessage) = Some t ->
        (8 # 10 <= t)%Q /\ (t <= 1)%Q).
Proof.
  intros Hnano.
  assert (Hparams := buildParams_text model userMessage opts Hnano).
  assert (Hindex :
    IndexJs.paramsFor model userMessage =
    {| RequestParams.model := model;
       RequestParams.messages :=
         [ {| ChatMessage.role := "system";
              ChatMessage.content := TEXT_SYSTEM_PROMPT |};
           {| ChatMessage.role := "user";
              ChatMessage.content := userMessage |} ];
       RequestParams.max_completion_tokens := None;
       RequestParams.max_tokens := Some 400;
       RequestParams.temperature := Some (8 # 10)%Q |}).
  { unfold IndexJs.paramsFor. now rewrite (isNano_false_includes _ Hnano). }
  split; [exact Hparams|]. split; [exact Hindex|].
  intros t [Ht|Ht]; [rewrite Hparams in Ht | rewrite Hindex in Ht];
    cbn in Ht; injection Ht as <-; split; unfold Qle; cbn; lia.
Qed.

Lemma C6_witness :
  isNano "gpt-4o-mini" = false
  /\ RequestParams.max_tokens (buildParams "gpt-4o-mini" "hi" Options.empty) = Some 400
  /\ RequestParams.temperature (buildParams "gpt-4o-mini" "hi" Options.empty) = Some 1%Q
  /\ RequestParams.temperature (IndexJs.paramsFor "gpt-4o-mini" "hi") = Some (8 # 10)%Q.
Proof.
  split; [reflexivity|].
  destruct (C6_general_params_literal_temperature
              "gpt-4o-mini" "hi" Options.empty eq_refl)
    as (Hparams & Hindex & _).
  rewrite Hparams, Hindex. repeat split.
Defined.



(** * Further properties *)

(** ** The token manager on the database *)

Section TokenManagerFacts.

Variable userId : string.
Variable tokens : Z.

(** Everything [addTokens] can do to the table: nothing, one update of
    the total of the first row of the user, or one new row. *)
Lemma addTokens_effect (db : Db.t) :
  forall r db', TokenManager.addTokens userId tokens db = (r, db') ->
  Db.messages db' = Db.messages db /\
  Db.transactions db' = Db.transactions db /\
  Db.now db' = Db.now db /\
  ((Db.token_usage db' = Db.token_usage db /\ Db.nextId db' = Db.nextId db)
   \/ (exists first rest,
         rowsOfUser userId db = first :: rest /\
         r = Returned (TokenUsage.total_tokens first + tokens) /\
         Db.token_usage db' =
           map (setTotal (TokenUsage.id first)
                  (TokenUsage.total_tokens first + tokens) (Db.now db))
             (Db.token_usage db) /\
         Db.nextId db' = Db.nextId db)
   \/ (r = Returned tokens /\
       Db.token_usage db' = (Db.token_usage db ++ [freshRow userId tokens db])%list /\
       Db.nextId db' = S (Db.nextId db)))
  /\ (forall err, r = Thrown err ->
        Db.token_usage db' = Db.token_usage db /\ Db.nextId db' = Db.nextId db).
Proof.
  intros r db'.
  unfold TokenManager.addTokens, Eff.bind, Eff.ret, Db.selectTokenUsage,
    Db.updateTokenUsage, Db.insertTokenUsage, Db.statement, rowsOfUser.
  destruct db as [tu ms ts next now fs]. cbn [Db.faults Db.token_usage].
  destruct fs as [|[[|err1]|] fs]; cbn;
    try (destruct (filter _ tu) as [|first rest] eqn:Hrows; cbn);
    try (destruct fs as [|[[|err2]|] fs]; cbn);
    intros [= <- <-]; cbn;
    (split; [reflexivity|]); (split; [reflexivity|]); (split; [reflexivity|]);
    (split; [|intros err0 Herr0; try discriminate Herr0; now split]);
    first [ left; split; reflexivity
          | right; left; exists first, rest; repeat split; reflexivity
          | right; right; repeat split; reflexivity ].
Qed.

End TokenManagerFacts.

Lemma setTotal_user_id (id : nat) (total at_ : Z) (row : TokenUsage.t) :
  TokenUsage.user_id (setTotal id total at_ row) = TokenUsage.user_id row.
Proof. unfold setTotal. now destruct (Nat.eqb _ _). Qed.


Lemma filter_setTotal (userId : string) (id : nat) (total at_ : Z)
    (rows : list TokenUsage.t) :
  filter (fun row => String.eqb (TokenUsage.user_id row) userId)
    (map (setTotal id total at_) rows) =
  map (setTotal id total at_)
    (filter (fun row => String.eqb (TokenUsage.user_id row) userId) rows).
Proof.
  induction rows as [|row rows IH]; [reflexivity|].
  cbn [map filter]. rewrite setTotal_user_id, IH.
  now destruct (String.eqb _ _).
Qed.

Lemma rowsOfUser_In (userId : string) (db : Db.t) (row : TokenUsage.t) :
  In row (rowsOfUser userId db) ->
  In row (Db.token_usage db) /\ TokenUsage.user_id row = userId.
Proof.
  unfold rowsOfUser. intros [Hin Heq]%filter_In.
  split; [assumption|]. now apply String.eqb_eq.
Qed.

(** Under the primary key, an update by the uuid of a row of one user
    leaves the rows of every other user as they are. *)
Lemma setTotal_other_user (db : Db.t) (first row : TokenUsage.t)
    (total at_ : Z) :
  keyed db ->
  In first (Db.token_usage db) -> In row (Db.token_usage db) ->
  TokenUsage.user_id row <> TokenUsage.user_id first ->
  setTotal (TokenUsage.id first) total at_ row = row.
Proof.
  intros [Hnodup _] Hfirst Hrow Hne. unfold setTotal.
  destruct (Nat.eqb_spec (TokenUsage.id row) (TokenUsage.id first)) as [Heq|];
    [|reflexivity].
  exfalso. apply Hne. f_equal.
  revert Hnodup Hfirst Hrow Heq.
  induction (Db.token_usage db) as [|x rows IH]; [contradiction|].
  cbn [map]. intros Hnodup [->|Hfirst] [->|Hrow] Heq.
  - reflexivity.
  - inversion Hnodup as [|? ? Hnotin _]; subst. exfalso. apply Hnotin.
    rewrite <- Heq. now apply in_map.
  - inversion Hnodup as [|? ? Hnotin _]; subst. exfalso. apply Hnotin.
    rewrite Heq. now apply in_map.
  - inversion Hnodup; subst. now apply IH.
Qed.

Section TokenManagerTheorems.

Variable userId : string.



(** X1.  [getTokens] never writes.  On a healthy database it returns the
    usage on record, 0 for a user without a row; a refused read also
    gives 0, whatever is on record; it throws only when the read is
    rejected. *)
Theorem getTokens_reads_or_zero (db : Db.t) :
  exists r db',
    TokenManager.getTokens userId db = (r, db')
    /\ Db.token_usage db' = Db.token_usage db
    /\ Db.messages db' = Db.messages db
    /\ Db.transactions db' = Db.transactions db
    /\ (healthy db -> r = Returned (usage userId db) /\ db' = db)
    /\ (forall rest, Db.faults db = Some Refused :: rest -> r = Returned 0)
    /\ (forall err, r = Thrown err ->
          exists rest, Db.faults db = Some (Rejected err) :: rest).
Proof.
  unfold TokenManager.getTokens, Eff.bind, Eff.ret, Db.selectTokenUsage,
    Db.statement, healthy, usage, rowsOfUser.
  destruct db as [tu ms ts next now fs]. cbn [Db.faults Db.token_usage].
  destruct fs as [|[[|err1]|] fs]; cbn;
    try (destruct (filter _ tu) as [|first rest] eqn:Hrows; cbn);
    eexists _, _;
    (split; [reflexivity|]); (split; [reflexivity|]); (split; [reflexivity|]);
    (split; [reflexivity|]);
    (split; [intros Hh; try discriminate Hh; now split|]);
    (split; [intros rest' Hr; try discriminate Hr; reflexivity|]);
    intros err0 Herr0; try discriminate Herr0.
  all: injection Herr0 as <-; now exists fs.
Qed.


End TokenManagerTheorems.

Section TokenManagerInvariants.

Variable userId : string.
Variable tokens : Z.

(** X3.  Under the primary key [addTokens] for one user never changes the
    usage on record of another user, whatever the faults of the
    database. *)
Theorem addTokens_other_users_untouched (db : Db.t) (other : string) :
  keyed db -> other <> userId ->
  usage other (snd (TokenManager.addTokens userId tokens db)) = usage other db.
Proof.
  intros Hkeyed Hother.
  destruct (TokenManager.addTokens userId tokens db) as [r db'] eqn:Hrun.
  destruct (addTokens_effect userId tokens db r db' Hrun)
    as (_ & _ & _ & Heffect & _).
  cbn [snd]. unfold usage, rowsOfUser.
  destruct Heffect as [[-> _]|[(first & rest & Hrows & _ & -> & _)|(_ & -> & _)]].
  - reflexivity.
  - rewrite filter_setTotal.
    assert (Hfirst : In first (rowsOfUser userId db))
      by (rewrite Hrows; now left).
    apply rowsOfUser_In in Hfirst as [Hfirst Huser].
    assert (Hsame :
      forall rows,
        (forall row, In row rows ->
                     In row (Db.token_usage db) /\ TokenUsage.user_id row = other) ->
        map (setTotal (TokenUsage.id first)
               (TokenUsage.total_tokens first + tokens) (Db.now db)) rows = rows).
    { induction rows as [|row rows IH]; [reflexivity|]. intros Hall.
      cbn [map]. rewrite IH by (intros x Hx; apply Hall; now right).
      destruct (Hall row (or_introl eq_refl)) as [Hin Hu].
      rewrite (setTotal_other_user db first row _ _ Hkeyed Hfirst Hin);
        [reflexivity | congruence]. }
    rewrite Hsame; [reflexivity|].
    intros row Hrow. now apply (rowsOfUser_In other db row).
  - rewrite filter_app. cbn [filter freshRow TokenUsage.user_id].
    destruct (String.eqb_spec userId other) as [Heq|_]; [congruence|].
    now rewrite app_nil_r.
Qed.



End TokenManagerInvariants.

Section TokenManagerSequences.

Variable userId : string.



End TokenManagerSequences.

(** ** The paths of the chat handler *)

Section ChatPaths.

Context {Ext : Type} {svc : Services Ext}.
Variable env : Env.

(** The first check of the handler. *)
Lemma api_chat_first_check (req : Request.t) (w : World Ext) :
  truthyUndef (Request.userId req) = false \/
  truthyUndef (Request.message req) = false ->
  api_chat env req w =
  (Returned {| Response.status := 400;
               Response.body := Response.Failure "Missing fields" None |}, w).
Proof.
  unfold api_chat, tryCatch, ret.
  destruct (Request.userId req) as [userId|], (Request.message req) as [message|];
    cbn [truthyUndef]; intros [Hf|Hf]; try discriminate Hf; try reflexivity;
    rewrite Hf; cbn [negb orb]; try reflexivity.
  now rewrite orb_true_r.
Qed.

(** A throw of the first read of the ledger ends in the outer [catch]. *)
Lemma api_chat_ledger_throws (req : Request.t) (userId message : string)
    (w : World Ext) (err : JsError.t) (e1 : Ext) :
  Request.userId req = Some userId -> truthy userId = true ->
  Request.message req = Some message -> truthy message = true ->
  getTokens userId (ext w) = (Thrown err, e1) ->
  api_chat env req w =
  (Returned {| Response.status := 500;
               Response.body :=
                 Response.Failure "server_error"
                   (Some (orUndef (JsError.message err) (JsError.toString err))) |},
   {| ext := e1; exchanges := exchanges w;
      console := (console w ++ [LogIncoming userId message; ErrorEndpoint err])%list |}).
Proof.
  intros Hu Htu Hm Htm Hget.
  unfold api_chat, tryCatch. rewrite Hu, Hm, Htu, Htm. cbn [negb orb].
  unfold bind, log, call, ret. cbn [ext exchanges console].
  rewrite Hget. cbn [ext exchanges console].
  now rewrite <- app_assoc.
Qed.

(** The gate closed. *)
Lemma api_chat_over_quota (req : Request.t) (userId message : string)
    (w : World Ext) (usedTokens : Z) (e1 : Ext) :
  Request.userId req = Some userId -> truthy userId = true ->
  Request.message req = Some message -> truthy message = true ->
  getTokens userId (ext w) = (Returned usedTokens, e1) ->
  geNumber usedTokens (FREE_TOKEN_LIMIT env) = true ->
  api_chat env req w =
  (Returned {| Response.status := 402;
               Response.body := Response.Failure "quota_exhausted" None |},
   {| ext := e1; exchanges := exchanges w;
      console :=
        (console w ++ [LogIncoming userId message;
                       LogLimitExceeded userId usedTokens (FREE_TOKEN_LIMIT env)])%list |}).
Proof.
  intros Hu Htu Hm Htm Hget Hgate.
  unfold api_chat, tryCatch. rewrite Hu, Hm, Htu, Htm. cbn [negb orb].
  unfold bind, log, call, ret. cbn [ext exchanges console].
  rewrite Hget, Hgate. cbn [ext exchanges console].
  now rewrite <- app_assoc.
Qed.

(** The plan exhausted: the handler reports the failure and touches
    neither the table nor the ledger. *)
Lemma api_chat_model_failure (req : Request.t) (userId message : string)
    (w : World Ext) (usedTokens : Z) (e1 : Ext) (r : Result.t) (w2 : World Ext) :
  Request.userId req = Some userId -> truthy userId = true ->
  Request.message req = Some message -> truthy message = true ->
  getTokens userId (ext w) = (Returned usedTokens, e1) ->
  geNumber usedTokens (FREE_TOKEN_LIMIT env) = false ->
  callOpenAIWithRetries env message (afterGate w userId message e1) =
    (Returned r, w2) ->
  Result.completion r = None ->
  api_chat env req w =
  (Returned {| Response.status := 500;
               Response.body :=
                 Response.Failure "model_failure"
                   (Some (orUndef (Result.lastError r ?> JsError.message)
                            "no_response_from_model")) |},
   {| ext := ext w2; exchanges := exchanges w2;
      console := (console w2 ++ [ErrorAllAttemptsFailed (Result.lastError r)])%list |}).
Proof.
  intros Hu Htu Hm Htm Hget Hgate Hrun Hcompletion.
  unfold api_chat, tryCatch. rewrite Hu, Hm, Htu, Htm. cbn [negb orb].
  unfold bind, log, call, ret. cbn [ext exchanges console].
  rewrite Hget, Hgate. unfold afterGate in Hrun. rewrite Hrun, Hcompletion.
  reflexivity.
Qed.

End ChatPaths.

Section ChatPastGate.

Context {Ext : Type} {svc : Services Ext}.
Variable env : Env.

(** Past the gate the handler runs the orchestrator once and answers
    from its result. *)
Lemma api_chat_past_gate (req : Request.t) (userId message : string)
    (w : World Ext) (usedTokens : Z) (e1 : Ext) :
  Request.userId req = Some userId -> truthy userId = true ->
  Request.message req = Some message -> truthy message = true ->
  getTokens userId (ext w) = (Returned usedTokens, e1) ->
  geNumber usedTokens (FREE_TOKEN_LIMIT env) = false ->
  exists resp w' r w2 xs,
    callOpenAIWithRetries env message (afterGate w userId message e1) =
      (Returned r, w2)
    /\ exchanges w2 = (exchanges w ++ xs)%list
    /\ Walk message (planFor env) None e1 xs r (ext w2)
    /\ api_chat env req w = (Returned resp, w')
    /\ exchanges w' = exchanges w2
    /\ ((Result.completion r = None /\ ext w' = ext w2 /\
         resp = {| Response.status := 500;
                   Response.body :=
                     Response.Failure "model_failure"
                       (Some (orUndef (Result.lastError r ?> JsError.message)
                                "no_response_from_model")) |})
        \/ (exists completion text totalTokens,
              Result.completion r = Some completion /\
              candidateOf (Some completion) = Some text /\ text <> "" /\
              resp = {| Response.status := 200;
                        Response.body :=
                          Response.Answer text (tokenCountOf (Some completion))
                            totalTokens |})).
Proof.
  intros Hu Htu Hm Htm Hget Hgate.
  destruct (callOpenAIWithRetries_walk env message (afterGate w userId message e1))
    as (r & w2 & xs & ls & Hrun & Hxs & _ & Hwalk & _).
  cbn [afterGate ext exchanges] in Hxs, Hwalk.
  destruct (Result.completion r) as [completion|] eqn:Hcompletion.
  - destruct (api_chat_persistence_swallowed env req userId message w usedTokens
                e1 r w2 completion Hu Htu Hm Htm Hget Hgate Hrun Hcompletion)
      as (totalTokens & w' & ls' & Hchat & Hxs' & _).
    destruct (Walk_oneOfTwoShapes _ _ _ _ _ _ _ Hwalk
                (or_introl (planFor_nonempty env)))
      as [(completion' & text & model & Hc & Htext & Hne & _)|(err & Hc & _)];
      [|congruence].
    rewrite Hcompletion in Hc. injection Hc as <-.
    rewrite (orUndef_truthy _ EMPTY_AFTER_RETRIES _ Htext Hne) in Hchat.
    eexists _, w', r, w2, xs.
    refine (conj Hrun (conj Hxs (conj Hwalk (conj Hchat (conj Hxs' _))))).
    right. exists completion, text, totalTokens. auto.
  - pose proof (api_chat_model_failure env req userId message w usedTokens e1 r w2
                  Hu Htu Hm Htm Hget Hgate Hrun Hcompletion) as Hchat.
    eexists _, _, r, w2, xs.
    refine (conj Hrun (conj Hxs (conj Hwalk (conj Hchat (conj eq_refl _))))).
    left. auto.
Qed.


(** X11.  The handler never throws and never leaves a request
    unanswered.  Its response is one of five: 400 [Missing fields], 402
    [quota_exhausted], 500 [model_failure], 500 [server_error], or 200
    with a non-empty message; and it calls the client at most three
    times. *)
Theorem api_chat_five_responses (req : Request.t) (w : World Ext) :
  exists resp w' xs,
    api_chat env req w = (Returned resp, w')
    /\ exchanges w' = (exchanges w ++ xs)%list
    /\ (length xs <= 3)%nat
    /\ (resp = {| Response.status := 400;
                  Response.body := Response.Failure "Missing fields" None |}
        \/ resp = {| Response.status := 402;
                     Response.body := Response.Failure "quota_exhausted" None |}
        \/ (exists details,
              resp = {| Response.status := 500;
                        Response.body :=
                          Response.Failure "model_failure" (Some details) |})
        \/ (exists details,
              resp = {| Response.status := 500;
                        Response.body :=
                          Response.Failure "server_error" (Some details) |})
        \/ (exists message tokensUsed totalTokens,
              message <> "" /\
              resp = {| Response.status := 200;
                        Response.body :=
                          Response.Answer message tokensUsed totalTokens |})).
Proof.
  destruct (truthyUndef (Request.userId req)) eqn:Htu.
  2:{ exists {| Response.status := 400;
                Response.body := Response.Failure "Missing fields" None |}, w, [].
      rewrite app_nil_r.
      split; [apply api_chat_first_check; now left|].
      split; [reflexivity|]. split; [cbn; lia | now left]. }
  destruct (truthyUndef (Request.message req)) eqn:Htm.
  2:{ exists {| Response.status := 400;
                Response.body := Response.Failure "Missing fields" None |}, w, [].
      rewrite app_nil_r.
      split; [apply api_chat_first_check; now right|].
      split; [reflexivity|]. split; [cbn; lia | now left]. }
  destruct (Request.userId req) as [userId|] eqn:Hu; [|discriminate].
  destruct (Request.message req) as [message|] eqn:Hm; [|discriminate].
  cbn in Htu, Htm.
  destruct (getTokens userId (ext w)) as [[usedTokens|err] e1] eqn:Hget.
  2:{ eexists _, _, [].
      split; [exact (api_chat_ledger_throws env req userId message w err e1
                       Hu Htu Hm Htm Hget)|].
      cbn [exchanges]. rewrite app_nil_r. split; [reflexivity|].
      split; [cbn; lia|]. right. right. right. left. now eexists. }
  destruct (geNumber usedTokens (FREE_TOKEN_LIMIT env)) eqn:Hgate.
  { eexists _, _, [].
    split; [exact (api_chat_over_quota env req userId message w usedTokens e1
                     Hu Htu Hm Htm Hget Hgate)|].
    cbn [exchanges]. rewrite app_nil_r. split; [reflexivity|].
    split; [cbn; lia|]. right. now left. }
  destruct (api_chat_past_gate req userId message w usedTokens e1
              Hu Htu Hm Htm Hget Hgate)
    as (resp & w' & r & w2 & xs & _ & Hxs & Hwalk & Hchat & Hxs' & Hresp).
  exists resp, w', xs.
  split; [exact Hchat|]. split; [now rewrite Hxs'|]. split.
  - pose proof (Walk_length _ _ _ _ _ _ _ Hwalk) as Hlen.
    unfold planFor in Hlen. rewrite planOf_attemptsFor_length in Hlen.
    destruct (isNano _); lia.
  - destruct Hresp as [(_ & _ & ->)|(completion & text & total & _ & _ & Hne & ->)].
    + right. right. left. now eexists.
    + right. right. right. right. now exists text, (tokenCountOf (Some completion)), total.
Qed.

(** X12.  Past the gate, when every call of the client fails, the
    handler answers with status 500 [model_failure] and the message of the
    condition recorded last, and neither the table nor the ledger is
    touched: from the state the first read of the ledger left, the outside
    world has seen the calls of the client and nothing else. *)
Theorem api_chat_failure_persists_nothing (req : Request.t)
    (userId message : string) (w : World Ext) (usedTokens : Z) (e1 : Ext) :
  Request.userId req = Some userId -> truthy userId = true ->
  Request.message req = Some message -> truthy message = true ->
  getTokens userId (ext w) = (Returned usedTokens, e1) ->
  geNumber usedTokens (FREE_TOKEN_LIMIT env) = false ->
  exists resp w' xs,
    api_chat env req w = (Returned resp, w')
    /\ exchanges w' = (exchanges w ++ xs)%list
    /\ (allFailed xs ->
          resp = {| Response.status := 500;
                    Response.body :=
                      Response.Failure "model_failure"
                        (Some (orUndef (recorded None xs ?> JsError.message)
                                 "no_response_from_model")) |}
          /\ chained e1 xs (ext w')).
Proof.
  intros Hu Htu Hm Htm Hget Hgate.
  destruct (api_chat_past_gate req userId message w usedTokens e1
              Hu Htu Hm Htm Hget Hgate)
    as (resp & w' & r & w2 & xs & _ & Hxs & Hwalk & Hchat & Hxs' & Hresp).
  exists resp, w', xs.
  split; [exact Hchat|]. split; [now rewrite Hxs'|].
  intros Hall.
  destruct (Walk_all_failed _ _ _ _ _ _ _ Hwalk Hall) as (_ & Hr).
  destruct Hresp as [(_ & Hext & ->)|(completion & text & total & Hc & _)].
  - rewrite Hext, Hr. split; [reflexivity|].
    eapply Walk_chained; eassumption.
  - rewrite Hr in Hc. discriminate.
Qed.

(** X13.  When [FREE_TOKEN_LIMIT] does not start with a number the
    ceiling is NaN and the gate is open to everybody: whatever the usage
    on record, the request goes to the client and the response is never
    402. *)
Theorem api_chat_nan_ceiling_never_blocks (req : Request.t)
    (userId message : string) (w : World Ext) (usedTokens : Z) (e1 : Ext) :
  FREE_TOKEN_LIMIT env = None ->
  Request.userId req = Some userId -> truthy userId = true ->
  Request.message req = Some message -> truthy message = true ->
  getTokens userId (ext w) = (Returned usedTokens, e1) ->
  exists resp w' xs,
    api_chat env req w = (Returned resp, w')
    /\ exchanges w' = (exchanges w ++ xs)%list
    /\ (1 <= length xs)%nat
    /\ Response.status resp <> 402.
Proof.
  intros Hnan Hu Htu Hm Htm Hget.
  assert (Hgate : geNumber usedTokens (FREE_TOKEN_LIMIT env) = false)
    by now rewrite Hnan.
  destruct (api_chat_past_gate req userId message w usedTokens e1
              Hu Htu Hm Htm Hget Hgate)
    as (resp & w' & r & w2 & xs & _ & Hxs & Hwalk & Hchat & Hxs' & Hresp).
  exists resp, w', xs.
  split; [exact Hchat|]. split; [now rewrite Hxs'|]. split.
  - eapply Walk_at_least_one; [eassumption | apply planFor_nonempty].
  - destruct Hresp as [(_ & _ & ->)|(completion & text & total & _ & _ & _ & ->)];
      cbn; lia.
Qed.

End ChatPastGate.

(** ** The chat handler on the database *)

Section BackendFacts.

Context {C : Type}.
Variable client : RequestParams.t -> C -> Completed (option Completion.t) * C.


Lemma backend_getTokens_refused (userId : string) (db : Db.t) (c : C)
    (rest : list (option Fault)) :
  Db.faults db = Some Refused :: rest ->
  getTokens (Services := backend client) userId (db, c) =
  (Returned 0, (Db.withFaults rest db, c)).
Proof.
  intros Hfaults. cbn [getTokens backend].
  unfold onDb, Eff.lift, TokenManager.getTokens, Eff.bind, Eff.ret,
    Db.selectTokenUsage, Db.statement.
  cbn [fst snd]. now rewrite Hfaults.
Qed.





(** X9.  The gate fails open.  When the read of the ledger is refused,
    [getTokens] gives 0, so with any ceiling above 0 the request goes to
    the client and is never answered 402, whatever the usage on
    record. *)
Theorem api_chat_refused_read_opens_gate (env : Env) (req : Request.t)
    (userId message : string) (w : World (Db.t * C)) (db : Db.t) (c : C)
    (rest : list (option Fault)) (limit : Z) :
  ext w = (db, c) -> Db.faults db = Some Refused :: rest ->
  Request.userId req = Some userId -> truthy userId = true ->
  Request.message req = Some message -> truthy message = true ->
  FREE_TOKEN_LIMIT env = Some limit -> 0 < limit ->
  exists resp w' xs,
    api_chat (svc := backend client) env req w = (Returned resp, w')
    /\ exchanges w' = (exchanges w ++ xs)%list
    /\ (1 <= length xs)%nat
    /\ Response.status resp <> 402.
Proof.
  intros Hext Hfaults Hu Htu Hm Htm Hlimit Hpos.
  assert (Hget : getTokens (Services := backend client) userId (ext w) =
                 (Returned 0, (Db.withFaults rest db, c)))
    by (rewrite Hext; now apply backend_getTokens_refused).
  assert (Hgate : geNumber 0 (FREE_TOKEN_LIMIT env) = false).
  { rewrite Hlimit. cbn. now apply Z.leb_gt. }
  destruct (api_chat_past_gate (svc := backend client) env req userId message w
              0 _ Hu Htu Hm Htm Hget Hgate)
    as (resp & w' & r & w2 & xs & _ & Hxs & Hwalk & Hchat & Hxs' & Hresp).
  exists resp, w', xs.
  split; [exact Hchat|]. split; [now rewrite Hxs'|]. split.
  - eapply Walk_at_least_one; [eassumption | apply planFor_nonempty].
  - destruct Hresp as [(_ & _ & ->)|(completion & text & total & _ & _ & _ & ->)];
      cbn; lia.
Qed.

End BackendFacts.

(** ** What counts as an answer *)

Lemma trimEnd_empty (s : string) : trimEnd s = "" <-> allSpaces s = true.
Proof.
  induction s as [|c s IH]; cbn [trimEnd allSpaces]; [easy|].
  destruct (trimEnd s) as [|d t] eqn:Ht.
  - destruct (isSpace c); cbn.
    + split; [intros _; now apply IH | reflexivity].
    + split; discriminate.
  - split; [discriminate|].
    intros [_ Hs]%andb_prop. apply IH in Hs. discriminate.
Qed.

Lemma allSpaces_trimStart (s : string) : allSpaces (trimStart s) = allSpaces s.
Proof.
  induction s as [|c s IH]; [reflexivity|]. cbn [trimStart allSpaces].
  destruct (isSpace c) eqn:Hc; cbn [andb].
  - exact IH.
  - cbn [allSpaces]. now rewrite Hc.
Qed.

Lemma trim_empty (s : string) : trim s = "" <-> allSpaces s = true.
Proof. unfold trim. now rewrite trimEnd_empty, allSpaces_trimStart. Qed.

(** X14.  A completion stops the orchestrator exactly when it is not
    null, has a first choice with a message, and the content of that
    message has a character that is not white space.  Later choices are
    never read. *)
Theorem answer_needs_visible_text (completion : option Completion.t) :
  nonEmptySuccess (Returned completion) = true <->
  exists c choice others message text,
    completion = Some c /\
    Completion.choices c = Some (choice :: others) /\
    Completion.message choice = Some message /\
    Completion.content message = Some text /\
    allSpaces text = false.
Proof.
  cbn [nonEmptySuccess]. unfold candidateOf, chain. split.
  - destruct completion as [c|]; [|discriminate].
    destruct (Completion.choices c) as [[|choice others]|] eqn:Hchoices;
      cbn [nth_error]; try discriminate.
    destruct (Completion.message choice) as [message|] eqn:Hmessage;
      [|discriminate].
    destruct (Completion.content message) as [text|] eqn:Hcontent;
      [|discriminate].
    cbn [truthyUndef]. intros Htruthy.
    exists c, choice, others, message, text. repeat (split; [easy|]).
    destruct (allSpaces text) eqn:Hspaces; [|reflexivity].
    apply trim_empty in Hspaces. rewrite Hspaces in Htruthy. discriminate.
  - intros (c & choice & others & message & text & -> & Hchoices & Hmessage
            & Hcontent & Hspaces).
    rewrite Hchoices. cbn [nth_error]. rewrite Hmessage, Hcontent.
    cbn [truthyUndef]. destruct (trim text) eqn:Htrim; [|reflexivity].
    apply trim_empty in Htrim. congruence.
Qed.

(** ** The models the orchestrator talks to *)

Lemma configuredModelOf_nonempty (env : Env) : configuredModelOf env <> "".
Proof.
  unfold configuredModelOf, orUndef, JsString.or.
  destruct (env "OPENAI_MODEL") as [[|c s]|]; cbn; discriminate.
Qed.

Lemma planFor_models (env : Env) (attempt : Attempt.t) :
  In attempt (planFor env) ->
  Attempt.model attempt = configuredModelOf env \/
  Attempt.model attempt = "gpt-4o-mini".
Proof.
  rewrite planFor_eq. destruct (isNano _); cbn;
    intros H; repeat (destruct H as [<-|H]; [auto|]); contradiction.
Qed.

(** X15.  Whatever the configuration, every request the orchestrator
    sends names the configured model or [gpt-4o-mini], never an empty
    model, an unset or empty [OPENAI_MODEL] standing for [gpt-4o-mini];
    it carries one system message followed by the message of the user,
    unchanged.  [modelUsed], when not null, is one of these two models. *)
Theorem orchestrator_models_and_messages {Ext : Type} {svc : Services Ext}
    (env : Env) (userMessage : string) (w : World Ext) :
  exists r w' xs,
    callOpenAIWithRetries env userMessage w = (Returned r, w')
    /\ exchanges w' = (exchanges w ++ xs)%list
    /\ Forall (fun x =>
         (RequestParams.model (fst x) = configuredModelOf env \/
          RequestParams.model (fst x) = "gpt-4o-mini")
         /\ RequestParams.model (fst x) <> ""
         /\ exists instruction,
              RequestParams.messages (fst x) =
              [ {| ChatMessage.role := "system";
                   ChatMessage.content := instruction |};
                {| ChatMessage.role := "user";
                   ChatMessage.content := userMessage |} ]) xs
    /\ (forall model, Result.modelUsed r = Some model ->
          model = configuredModelOf env \/ model = "gpt-4o-mini")
    /\ ((env "OPENAI_MODEL" = None \/ env "OPENAI_MODEL" = Some "") ->
          configuredModelOf env = "gpt-4o-mini").
Proof.
  destruct (callOpenAIWithRetries_walk env userMessage w)
    as (r & w' & xs & ls & Hrun & Hxs & _ & Hwalk & _).
  exists r, w', xs.
  refine (conj Hrun (conj Hxs (conj _ (conj _ _)))).
  - pose proof (Walk_in_order _ _ _ _ _ _ _ Hwalk) as Horder.
    apply Forall_forall. intros x Hx.
    assert (Hp : In (fst x) (map (paramsOf userMessage) (planFor env))).
    { rewrite <- (firstn_skipn (length xs) (map _ (planFor env))).
      apply in_or_app. left. rewrite <- Horder. now apply in_map. }
    apply in_map_iff in Hp as (attempt & <- & Hattempt).
    rewrite paramsOf_model.
    pose proof (planFor_models env attempt Hattempt) as Hmodel.
    split; [exact Hmodel|]. split.
    + destruct Hmodel as [-> | ->];
        [apply configuredModelOf_nonempty | discriminate].
    + unfold paramsOf, buildParams. destruct (includes _ _); now eexists.
  - intros model Hmodel.
    destruct (Walk_oneOfTwoShapes _ _ _ _ _ _ _ Hwalk
                (or_introl (planFor_nonempty env)))
      as [(completion & text & model' & Hc & Htext & Hne & _)|(err & _ & Hnone & _)];
      [|congruence].
    assert (Hsuccess : exists k x, nth_error xs k = Some x /\
                                   nonEmptySuccess (snd x) = true).
    { clear - Hwalk Hc. induction Hwalk as [| |attempt plan lastError e outcome e1 xs r e' Hcr Hko Hrest IH].
      - discriminate.
      - exists 0%nat. eexists. split; [reflexivity|]. assumption.
      - destruct (IH Hc) as (k & x & Hk & Hx). now exists (S k), x. }
    destruct Hsuccess as (k & x & Hk & Hx).
    destruct (Walk_stops_at_success _ _ _ _ _ _ _ Hwalk k x Hk Hx)
      as (_ & attempt & completion' & Hn & _ & Hr).
    rewrite Hr in Hmodel. cbn in Hmodel. injection Hmodel as <-.
    apply planFor_models. eapply nth_error_In; eassumption.
  - unfold configuredModelOf. now intros [-> | ->].
Qed.

(** ** How a model is matched *)

Lemma toLowerCase_app (a b : string) :
  toLowerCase (a ++ b) = toLowerCase a ++ toLowerCase b.
Proof. induction a as [|c a IH]; cbn; [reflexivity | now rewrite IH]. Qed.

Lemma startsWith_app (p rest : string) : startsWith (p ++ rest) p = true.
Proof.
  induction p as [|c p IH]; cbn.
  - now destruct rest.
  - now rewrite Ascii.eqb_refl.
Qed.

Lemma startsWith_split (p s : string) :
  startsWith s p = true -> exists rest, s = p ++ rest.
Proof.
  revert s. induction p as [|a p IH]; intros s; cbn.
  - intros _. now exists s.
  - destruct s as [|b s]; [discriminate|].
    intros [Hab Hrest]%andb_prop. apply Ascii.eqb_eq in Hab as ->.
    destruct (IH s Hrest) as (rest & ->). now exists rest.
Qed.

Lemma includes_startsWith (s sub : string) :
  startsWith s sub = true -> includes s sub = true.
Proof. destruct s; cbn; now intros ->. Qed.

Lemma includes_app (before sub after : string) :
  includes (before ++ sub ++ after) sub = true.
Proof.
  induction before as [|c before IH]; cbn [append].
  - apply includes_startsWith, startsWith_app.
  - cbn [includes]. rewrite IH. apply orb_true_r.
Qed.

Lemma includes_split (s sub : string) :
  includes s sub = true -> exists before after, s = before ++ sub ++ after.
Proof.
  induction s as [|c s IH]; cbn [includes]; intros [Hstart|Hrest]%orb_prop.
  - apply startsWith_split in Hstart as (rest & ->). now exists "", rest.
  - discriminate.
  - apply startsWith_split in Hstart as (rest & ->). now exists "", rest.
  - destruct (IH Hrest) as (before & after & ->).
    now exists (String c before), after.
Qed.

Lemma toLowerCase_split (a b : string) :
  forall s, toLowerCase s = a ++ b ->
  exists s1 s2, s = s1 ++ s2 /\ toLowerCase s1 = a /\ toLowerCase s2 = b.
Proof.
  induction a as [|c a IH]; intros s; cbn [append].
  - intros Hs. now exists "", s.
  - destruct s as [|d s]; cbn [toLowerCase]; [discriminate|].
    intros [= Hd Hs]. destruct (IH s Hs) as (s1 & s2 & -> & H1 & H2).
    exists (String d s1), s2. cbn. now rewrite Hd, H1.
Qed.

(** X16.  [buildParams] takes a model for one of the narrow family
    exactly when the identifier contains, anywhere, a piece that reads
    [gpt-5-nano] once lower-cased; in particular every model that the
    case-sensitive test of index.js takes for one is taken for one. *)
Theorem narrow_family_matching (model : string) :
  (isNano model = true <->
   exists before piece after,
     model = before ++ piece ++ after /\ toLowerCase piece = "gpt-5-nano")
  /\ (includes model "gpt-5-nano" = true -> isNano model = true).
Proof.
  rewrite isNano_includes. split; [split|].
  - intros Hinc. apply includes_split in Hinc as (before & after & Hsplit).
    apply toLowerCase_split in Hsplit as (s1 & s23 & -> & <- & H23).
    apply toLowerCase_split in H23 as (s2 & s3 & -> & H2 & _).
    now exists s1, s2, s3.
  - intros (before & piece & after & -> & Hpiece).
    rewrite !toLowerCase_app, Hpiece. apply includes_app.
  - intros Hinc. now apply (includes_toLowerCase model "gpt-5-nano").
Qed.

(** ** The handler of index.js *)

(** X17.  Past the gate the handler of index.js calls the client exactly
    once, with no second attempt: a throw of the client is answered with
    status 500 [server_error]; a completion is answered with status 200
    once the two writes went through, and when no text can be read from it
    the message is the placeholder, for which the tokens of the completion
    are charged all the same. *)
Theorem index_js_single_attempt {Ext : Type} {svc : Services Ext} (env : Env)
    (req : Request.t) (userId message : string) (w : World Ext)
    (usedTokens : Z) (e1 e2 : Ext)
    (outcome : Completed (option Completion.t)) :
  Request.userId req = Some userId -> truthy userId = true ->
  Request.message req = Some message -> truthy message = true ->
  getTokens userId (ext w) = (Returned usedTokens, e1) ->
  geNumber usedTokens (IndexJs.FREE_TOKEN_LIMIT env) = false ->
  create (IndexJs.paramsFor (IndexJs.modelToUse env) message) e1 = (outcome, e2) ->
  exists resp w',
    IndexJs.api_chat env req w = (Returned resp, w')
    /\ exchanges w' =
       (exchanges w ++
        [(IndexJs.paramsFor (IndexJs.modelToUse env) message, outcome)])%list
    /\ (forall err, outcome = Thrown err ->
          ext w' = e2 /\
          resp = {| Response.status := 500;
                    Response.body :=
                      Response.Failure "server_error" (JsError.message err) |})
    /\ (forall completion e3 e4 newTotal,
          outcome = Returned completion ->
          insert (rowsOf (Request.sessionId req) message
                    (orUndef (candidateOf completion) IndexJs.EMPTY_FROM_MODEL)
                    (tokenCountOf completion)) e2 = (Returned tt, e3) ->
          addTokens userId (tokenCountOf completion) e3 = (Returned newTotal, e4) ->
          ext w' = e4 /\
          resp = {| Response.status := 200;
                    Response.body :=
                      Response.Answer
                        (orUndef (candidateOf completion) IndexJs.EMPTY_FROM_MODEL)
                        (tokenCountOf completion) (Some newTotal) |} /\
          (truthyUndef (candidateOf completion) = false ->
           orUndef (candidateOf completion) IndexJs.EMPTY_FROM_MODEL =
           IndexJs.EMPTY_FROM_MODEL)).
Proof.
  intros Hu Htu Hm Htm Hget Hgate Hcreate.
  unfold IndexJs.api_chat, tryCatch. rewrite Hu, Hm, Htu, Htm. cbn [negb orb].
  unfold bind, log, call, openai_create, ret. cbn [ext exchanges console].
  rewrite Hget. cbn [ext exchanges console]. rewrite Hgate.
  cbn [ext exchanges console]. rewrite Hcreate.
  destruct outcome as [completion|err]; cbn [ext exchanges console].
  - match goal with
    | |- context [insert ?rows e2] =>
        destruct (insert rows e2) as [[[]|dbErr] e3] eqn:Hinsert
    end; cbn [ext exchanges console].
    + destruct (addTokens userId (tokenCountOf completion) e3)
        as [[newTotal|tokErr] e4] eqn:Hadd; cbn [ext exchanges console];
        eexists _, _; (split; [reflexivity|]); (split; [reflexivity|]);
        (split; [intros err [=]|]);
        intros completion' e3' e4' newTotal' [= <-] Hins' Hadd';
        rewrite Hinsert in Hins'; injection Hins' as <-;
        rewrite Hadd in Hadd'; try discriminate Hadd'.
      injection Hadd' as <- <-. split; [reflexivity|]. split; [reflexivity|].
      destruct (candidateOf completion) as [[|c s]|]; cbn; easy.
    + eexists _, _; (split; [reflexivity|]); (split; [reflexivity|]);
        (split; [intros err [=]|]).
      intros completion' e3' e4' newTotal' [= <-] Hins'.
      rewrite Hinsert in Hins'. discriminate Hins'.
  - eexists _, _. split; [reflexivity|]. split; [reflexivity|].
    split; [intros err' [= <-]; now split | intros ? ? ? ? [=]].
Qed.

(** ** The payment routes *)

Lemma pricing_Missing (key : string) :
  pricing key = Missing <->
  ~ In key ("college" :: "lite" :: "pro" :: objectPrototypeNames).
Proof.
  unfold pricing.
  destruct (String.eqb_spec key "college") as [->|H1];
    [split; [discriminate | intros H; exfalso; apply H; now left]|].
  destruct (String.eqb_spec key "lite") as [->|H2];
    [split; [discriminate | intros H; exfalso; apply H; right; now left]|].
  destruct (String.eqb_spec key "pro") as [->|H3];
    [split; [discriminate | intros H; exfalso; apply H; right; right; now left]|].
  destruct (existsb (String.eqb key) objectPrototypeNames) eqn:Hex.
  - split; [discriminate|]. intros H. exfalso. apply H.
    apply existsb_exists in Hex as (name & Hin & Heq).
    apply String.eqb_eq in Heq as ->. now do 3 right.
  - split; [|reflexivity]. intros _ [H|[H|[H|H]]]; try congruence.
    assert (existsb (String.eqb key) objectPrototypeNames = true); [|congruence].
    apply existsb_exists. exists key. split; [assumption | apply String.eqb_refl].
Qed.

Lemma falsy_pricing (key : string) :
  falsy (pricing key) = true <-> pricing key = Missing.
Proof.
  unfold pricing.
  repeat (destruct (String.eqb _ _); [cbn; split; discriminate|]).
  destruct (existsb _ _); cbn; split; congruence.
Qed.

Section PaymentFacts.

Context {R : Type} {platform : Platform R}.
Variable env : Env.

(** X18.  POST /api/create-order answers 400 [invalid_plan] exactly for
    the plans that are neither [college], [lite] or [pro] nor the name of
    a member inherited from [Object.prototype], a missing plan included,
    and does nothing else then; for every other plan, [constructor] and
    the like included, it calls the gateway once and never answers 400. *)
Theorem create_order_plan_check (body : OrderBody.t) (s : Shop.t R) :
  exists resp s',
    api_create_order body s = (Returned resp, s')
    /\ (PaymentResponse.status resp = 400 <->
        ~ In (interpolate (OrderBody.plan body))
            ("college" :: "lite" :: "pro" :: objectPrototypeNames))
    /\ (PaymentResponse.status resp = 400 ->
          s' = s /\
          PaymentResponse.body resp = PaymentResponse.Failure "invalid_plan" None)
    /\ (PaymentResponse.status resp <> 400 ->
          Shop.gateway s' = snd (orders_create (orderRequestOf body s) (Shop.gateway s))).
Proof.
  assert (Hcheck :
    falsy (pricing (interpolate (OrderBody.plan body))) = true <->
    ~ In (interpolate (OrderBody.plan body))
        ("college" :: "lite" :: "pro" :: objectPrototypeNames))
    by (rewrite falsy_pricing; apply pricing_Missing).
  unfold api_create_order.
  destruct (falsy (pricing (interpolate (OrderBody.plan body)))) eqn:Hfalsy.
  - eexists _, _. split; [reflexivity|]. cbn.
    split; [split; [intros _; now apply Hcheck | reflexivity]|].
    split; [easy | congruence].
  - assert (Hknown :
      ~ ~ In (interpolate (OrderBody.plan body))
            ("college" :: "lite" :: "pro" :: objectPrototypeNames))
      by (intros Hnot; apply Hcheck in Hnot; discriminate).
    unfold Eff.tryCatch, Eff.bind, Eff.ret, createOrder, inDb, Eff.lift, logPayment.
    fold (orderRequestOf body s).
    destruct (orders_create (orderRequestOf body s) (Shop.gateway s))
      as [[order|err] g] eqn:Hgateway; cbn [Shop.db Shop.gateway Shop.clock Shop.console].
    + destruct (insertTransaction _ _ _ _) as [[inserted|err] db'];
        eexists _, _; (split; [reflexivity|]); cbn;
        (split; [split; [lia | intros Hnot; now destruct (Hknown Hnot)]|]);
        (split; [lia | reflexivity]).
    + eexists _, _. split; [reflexivity|]. cbn.
      split; [split; [lia | intros Hnot; now destruct (Hknown Hnot)]|].
      split; [lia | reflexivity].
Qed.

(** X19.  For one of the three plans the gateway is asked for an order
    of the price of the plan in paise, 9900, 29900 or 59900, in INR.  When
    it returns an order and the database is healthy, the answer is that
    order with status 200 and one row is appended to [transactions], with
    the user, the id of the order, the price and the status [created];
    when the insert is refused the answer is the same and no row exists;
    when the insert rejects, the answer is 500 [razorpay_error] although
    the order exists.  When the gateway throws, the answer is 500
    [razorpay_error] and the database is not touched. *)
Theorem create_order_known_plan (body : OrderBody.t) (s : Shop.t R)
    (price : Z) (outcome : Completed Order.t) (g : R) :
  pricing (interpolate (OrderBody.plan body)) = Own price ->
  orders_create (orderRequestOf body s) (Shop.gateway s) = (outcome, g) ->
  (price = 9900 \/ price = 29900 \/ price = 59900)
  /\ OrderRequest.amount (orderRequestOf body s) = Own price
  /\ exists resp s',
       api_create_order body s = (Returned resp, s')
       /\ Shop.gateway s' = g
       /\ (forall order, outcome = Returned order ->
             (healthy (Shop.db s) ->
                resp = {| PaymentResponse.status := 200;
                          PaymentResponse.body :=
                            PaymentResponse.OrderCreated order |}
                /\ Db.transactions (Shop.db s') =
                   (Db.transactions (Shop.db s) ++
                    [createdTransaction body order (Shop.db s)])%list)
             /\ (forall rest, Db.faults (Shop.db s) = Some Refused :: rest ->
                   resp = {| PaymentResponse.status := 200;
                             PaymentResponse.body :=
                               PaymentResponse.OrderCreated order |}
                   /\ Db.transactions (Shop.db s') = Db.transactions (Shop.db s))
             /\ (forall err rest,
                   Db.faults (Shop.db s) = Some (Rejected err) :: rest ->
                   resp = {| PaymentResponse.status := 500;
                             PaymentResponse.body :=
                               PaymentResponse.Failure "razorpay_error"
                                 (Some (orUndef (JsError.message err)
                                          (JsError.toString err))) |}
                   /\ Db.transactions (Shop.db s') = Db.transactions (Shop.db s)))
       /\ (forall err, outcome = Thrown err ->
             resp = {| PaymentResponse.status := 500;
                       PaymentResponse.body :=
                         PaymentResponse.Failure "razorpay_error"
                           (Some (orUndef (JsError.message err)
                                    (JsError.toString err))) |}
             /\ Shop.db s' = Shop.db s).
Proof.
  intros Hprice Hgateway. split; [|split].
  - revert Hprice. unfold pricing.
    repeat (destruct (String.eqb _ _); [intros [= <-]; auto|]).
    destruct (existsb _ _); discriminate.
  - exact Hprice.
  - unfold api_create_order.
    assert (Hfalsy : falsy (pricing (interpolate (OrderBody.plan body))) = false).
    { destruct (falsy _) eqn:Hf; [|reflexivity].
      apply falsy_pricing in Hf. congruence. }
    rewrite Hfalsy.
    unfold Eff.tryCatch, Eff.bind, Eff.ret, createOrder, inDb, Eff.lift, logPayment.
    fold (orderRequestOf body s). rewrite Hgateway.
    destruct outcome as [order|err];
      cbn [Shop.db Shop.gateway Shop.clock Shop.console].
    + unfold insertTransaction, Db.statement, healthy, createdTransaction.
      destruct (Db.faults (Shop.db s)) as [|[[|err]|] rest] eqn:Hfaults;
        eexists _, _; (split; [reflexivity|]); (split; [reflexivity|]);
        (split; [|intros err' [=]]);
        intros order' [= <-];
        (split; [intros Hh; try discriminate Hh; now split|]);
        (split; [intros rest' Hrest; try discriminate Hrest; now split|]);
        intros err' rest' Hrest; try discriminate Hrest;
        injection Hrest as <- _; now split.
    + eexists _, _. split; [reflexivity|]. split; [reflexivity|].
      split; [intros order [=]|]. intros err' [= <-]. now split.
Qed.

End PaymentFacts.

Section VerifyPaymentFacts.

Context {R : Type} {platform : Platform R}.
Variable env : Env.

(** X20.  POST /api/verify-payment writes nothing unless the secret is
    set and the signature is the digest of [order|payment] under it: with
    the secret unset every request is answered 500
    [verify_payment_error], and with another signature, a missing one
    included, the answer is 400 [invalid_signature]; in both cases only
    the console changes. *)
Theorem verify_payment_rejects (body : VerifyBody.t) (s : Shop.t R) :
  (env "RAZORPAY_KEY_SECRET" = None ->
   api_verify_payment env body s =
   (Returned {| PaymentResponse.status := 500;
                PaymentResponse.body :=
                  PaymentResponse.Failure "verify_payment_error"
                    (Some (orUndef (JsError.message invalidKeyError)
                             (JsError.toString invalidKeyError))) |},
    logged (ErrorPaymentVerification invalidKeyError) s))
  /\ (forall secret,
        env "RAZORPAY_KEY_SECRET" = Some secret ->
        VerifyBody.razorpay_signature body <>
          Some (hmacSha256Hex secret (signedData body)) ->
        api_verify_payment env body s =
        (Returned {| PaymentResponse.status := 400;
                     PaymentResponse.body :=
                       PaymentResponse.Failure "invalid_signature" None |},
         logged WarnInvalidSignature s)).
Proof.
  unfold api_verify_payment, digestOf, Eff.tryCatch, Eff.bind, Eff.ret,
    Eff.throw, logPayment, logged.
  split.
  - now intros ->.
  - intros secret -> Hsignature. cbv beta iota. fold (signedData body).
    destruct (VerifyBody.razorpay_signature body) as [signature|]; [|reflexivity].
    destruct (String.eqb_spec (hmacSha256Hex secret (signedData body)) signature)
      as [<-|_]; [congruence | reflexivity].
Qed.




(** X23.  The two writes are not one: when the update of the
    transaction goes through and the read of the ledger then rejects, the
    request is answered 500 [verify_payment_error], the transactions with
    the order id are marked [paid], and no token is credited. *)
Theorem verify_payment_paid_without_tokens (body : VerifyBody.t) (s : Shop.t R)
    (secret : string) (err : JsError.t) (rest : list (option Fault)) :
  env "RAZORPAY_KEY_SECRET" = Some secret ->
  VerifyBody.razorpay_signature body =
    Some (hmacSha256Hex secret (signedData body)) ->
  Db.faults (Shop.db s) = None :: Some (Rejected err) :: rest ->
  exists s',
    api_verify_payment env body s =
    (Returned {| PaymentResponse.status := 500;
                 PaymentResponse.body :=
                   PaymentResponse.Failure "verify_payment_error"
                     (Some (orUndef (JsError.message err)
                              (JsError.toString err))) |}, s')
    /\ Db.transactions (Shop.db s') =
       paidTransactions (VerifyBody.razorpay_order_id body)
         (VerifyBody.razorpay_payment_id body) (Db.transactions (Shop.db s))
    /\ Db.token_usage (Shop.db s') = Db.token_usage (Shop.db s).
Proof.
  intros Hsecret Hsignature Hfaults.
  eexists. split.
  - unfold api_verify_payment, digestOf, TokenManager.addTokens, Eff.tryCatch,
      Eff.bind, Eff.ret, logPayment, inDb, Eff.lift, updateTransaction,
      Db.selectTokenUsage, Db.statement.
    fold (signedData body).
    rewrite Hsecret, Hsignature, String.eqb_refl. cbn [negb Shop.db].
    rewrite Hfaults. cbn. reflexivity.
  - cbn. split; reflexivity.
Qed.

End VerifyPaymentFacts.

(** ** The theorems on sample data *)

Example receipt_of_clock : receiptAt 1700000000000 = "rcpt_1700000000000".
Proof. reflexivity. Qed.

Example pricing_constructor : pricing "constructor" = Inherited "constructor".
Proof. reflexivity. Qed.


Ltac sample_keyed :=
  split; cbn; repeat constructor; cbn; intuition discriminate.

Lemma addTokens_other_users_untouched_witness :
  usage "u2" (snd (TokenManager.addTokens "u1" 12 Sample.db)) = 120000.
Proof.
  rewrite (addTokens_other_users_untouched "u1" 12 Sample.db "u2").
  - reflexivity.
  - sample_keyed.
  - discriminate.
Defined.





Lemma api_chat_refused_read_opens_gate_witness :
  geNumber (usage "u2" Sample.db) (FREE_TOKEN_LIMIT (Stub.envWith None)) = true
  /\ exists resp w',
       api_chat (svc := backend Sample.client) (Stub.envWith None)
         {| Request.userId := Some "u2"; Request.sessionId := None;
            Request.tileId := None; Request.message := Some "hi" |}
         (Sample.world (Sample.dbWith [Some Refused])) = (Returned resp, w')
       /\ Response.status resp <> 402.
Proof.
  split; [reflexivity|].
  destruct (api_chat_refused_read_opens_gate Sample.client (Stub.envWith None)
              {| Request.userId := Some "u2"; Request.sessionId := None;
                 Request.tileId := None; Request.message := Some "hi" |}
              "u2" "hi" (Sample.world (Sample.dbWith [Some Refused]))
              (Sample.dbWith [Some Refused]) 0%nat [] 100000
              eq_refl eq_refl eq_refl eq_refl eq_refl eq_refl eq_refl)
    as (resp & w' & xs & Hchat & _ & _ & Hstatus); [lia|].
  now exists resp, w'.
Defined.


Lemma api_chat_failure_persists_nothing_witness :
  exists w',
    api_chat (svc := backend Sample.busyClient) (Stub.envWith None) Stub.request
      (Sample.world Sample.db) =
    (Returned {| Response.status := 500;
                 Response.body :=
                   Response.Failure "model_failure"
                     (Some "429 Rate limit reached") |}, w')
    /\ ext w' = (Sample.db, 2%nat).
Proof.
  destruct (api_chat_failure_persists_nothing
              (svc := backend Sample.busyClient) (Stub.envWith None)
              Stub.request "u1" "kya haal hai" (Sample.world Sample.db) 40
              (Sample.db, 0%nat) eq_refl eq_refl eq_refl eq_refl eq_refl eq_refl)
    as (resp & w' & xs & Hchat & Hxs & Hfailed).
  pose proof Hchat as Hvalue. vm_compute in Hvalue.
  injection Hvalue as _ Hw. subst w'. cbn in Hxs. subst xs.
  destruct Hfailed as [-> _]; [repeat constructor|].
  eexists. split; [exact Hchat|]. reflexivity.
Defined.

Lemma api_chat_nan_ceiling_never_blocks_witness :
  FREE_TOKEN_LIMIT (Sample.envOnly "FREE_TOKEN_LIMIT" "unlimited") = None
  /\ exists resp w',
       api_chat (svc := backend Sample.client)
         (Sample.envOnly "FREE_TOKEN_LIMIT" "unlimited")
         {| Request.userId := Some "u2"; Request.sessionId := None;
            Request.tileId := None; Request.message := Some "hi" |}
         (Sample.world Sample.db) = (Returned resp, w')
       /\ Response.status resp <> 402.
Proof.
  split; [reflexivity|].
  destruct (api_chat_nan_ceiling_never_blocks
              (svc := backend Sample.client)
              (Sample.envOnly "FREE_TOKEN_LIMIT" "unlimited")
              {| Request.userId := Some "u2"; Request.sessionId := None;
                 Request.tileId := None; Request.message := Some "hi" |}
              "u2" "hi" (Sample.world Sample.db) 120000 (Sample.db, 0%nat)
              eq_refl eq_refl eq_refl eq_refl eq_refl eq_refl)
    as (resp & w' & xs & Hchat & _ & _ & Hstatus).
  now exists resp, w'.
Defined.

Lemma index_js_single_attempt_witness :
  exists w',
    IndexJs.api_chat (svc := Stub.services (Stub.config Stub.alwaysEmpty))
      (Stub.envWith None) Stub.request Stub.world0 =
    (Returned {| Response.status := 200;
                 Response.body :=
                   Response.Answer IndexJs.EMPTY_FROM_MODEL 12 (Some 52) |}, w')
    /\ length (exchanges w') = 1%nat.
Proof.
  destruct (index_js_single_attempt
              (svc := Stub.services (Stub.config Stub.alwaysEmpty))
              (Stub.envWith None) Stub.request "u1" "kya haal hai" Stub.world0
              40 0%nat 1%nat (Stub.alwaysEmpty 0)
              eq_refl eq_refl eq_refl eq_refl eq_refl eq_refl eq_refl)
    as (resp & w' & Hchat & Hxs & _ & Hanswer).
  destruct (Hanswer _ 1%nat 1%nat 52 eq_refl eq_refl eq_refl) as (_ & -> & _).
  exists w'. split; [exact Hchat|]. now rewrite Hxs.
Defined.

Lemma create_order_known_plan_witness :
  exists s',
    api_create_order (platform := Sample.platform) Sample.proOrder
      (Sample.shop Sample.db) =
    (Returned {| PaymentResponse.status := 200;
                 PaymentResponse.body :=
                   PaymentResponse.OrderCreated {| Order.id := Some "order_7" |} |},
     s')
    /\ OrderRequest.amount (orderRequestOf Sample.proOrder (Sample.shop Sample.db)) =
       Own 59900
    /\ length (Db.transactions (Shop.db s')) = 2%nat.
Proof.
  destruct (create_order_known_plan (platform := Sample.platform)
              Sample.proOrder (Sample.shop Sample.db) 59900 _ _ eq_refl eq_refl)
    as (_ & Hamount & resp & s' & Hrun & _ & Hreturned & _).
  destruct (Hreturned _ eq_refl) as (Hhealthy & _).
  destruct (Hhealthy eq_refl) as [-> Hrows].
  exists s'. split; [exact Hrun|]. split; [exact Hamount|].
  now rewrite Hrows.
Defined.

Lemma verify_payment_rejects_witness :
  fst (api_verify_payment (platform := Sample.platform) (Stub.envWith None)
         Sample.paidBody (Sample.shop Sample.db)) =
    Returned {| PaymentResponse.status := 500;
                PaymentResponse.body :=
                  PaymentResponse.Failure "verify_payment_error"
                    (Some "The key argument must be of type string") |}
  /\ fst (api_verify_payment (platform := Sample.platform)
            (Sample.envOnly "RAZORPAY_KEY_SECRET" "other")
            Sample.paidBody (Sample.shop Sample.db)) =
     Returned {| PaymentResponse.status := 400;
                 PaymentResponse.body :=
                   PaymentResponse.Failure "invalid_signature" None |}.
Proof.
  split.
  - now rewrite (proj1 (verify_payment_rejects (platform := Sample.platform)
                          (Stub.envWith None) Sample.paidBody
                          (Sample.shop Sample.db)) eq_refl).
  - rewrite (proj2 (verify_payment_rejects (platform := Sample.platform)
                      (Sample.envOnly "RAZORPAY_KEY_SECRET" "other")
                      Sample.paidBody (Sample.shop Sample.db))
               "other" eq_refl); [reflexivity | discriminate].
Defined.



Lemma verify_payment_paid_without_tokens_witness :
  exists s',
    api_verify_payment (platform := Sample.platform)
      (Sample.envOnly "RAZORPAY_KEY_SECRET" "s3cret") Sample.paidBody
      (Sample.shop (Sample.dbWith [None; Some (Rejected Stub.databaseDown)])) =
    (Returned {| PaymentResponse.status := 500;
                 PaymentResponse.body :=
                   PaymentResponse.Failure "verify_payment_error"
                     (Some "connection refused") |}, s')
    /\ map Transaction.status (Db.transactions (Shop.db s')) = ["paid"]
    /\ usage "u1" (Shop.db s') = 40.
Proof.
  destruct (verify_payment_paid_without_tokens (platform := Sample.platform)
              (Sample.envOnly "RAZORPAY_KEY_SECRET" "s3cret") Sample.paidBody
              (Sample.shop (Sample.dbWith [None; Some (Rejected Stub.databaseDown)]))
              "s3cret" Stub.databaseDown [] eq_refl eq_refl eq_refl)
    as (s' & Hrun & Hrows & Hledger).
  exists s'. split; [exact Hrun|]. split; [now rewrite Hrows|].
  unfold usage, rowsOfUser. now rewrite Hledger.
Defined.
